(** * Fire-risk visualisation script: a shallow embedding

    Source: [@visualization/visualize_fire_risk.py].  The script loads a JSON
    array of building records, draws a bar chart of the risk scores sorted in
    descending order, optionally draws a second chart grouped by building
    type, and saves both as PNG files.

    The embedding keeps the structure of the script: one definition per
    Python function, under the same name, in a state-and-exception monad over
    a [world] made of the file system, the pyplot figure stack and standard
    output.

    Scope of the model.
    - A record is a dict whose keys [building_name], [fire_risk_score] and
      [building_type] are each present or absent; a present key holds a
      value of the type the data model gives it.  Records with, say, a
      string for a score are not covered.
    - [buildings.json] holds a JSON array of such records, or something
      [json.load] rejects; other well-formed JSON documents are not covered.
    - numpy, pandas, seaborn and matplotlib are modelled by what the script
      uses of them.  A figure is the list of the drawing calls made on it;
      writing a file always succeeds, and the pixel limits of the image
      backend are ignored. *)

From Stdlib Require Import QArith Qminmax Sorted.
From stdpp Require Import gmap strings list sorting.

Open Scope string_scope.

(** ** Numbers

    A JSON number is loaded as a Python [int] or a finite [float].  Python
    compares the two exactly, by value, so a number is modelled by the
    rational it denotes.  The non-standard JSON tokens [NaN] and [Infinity],
    and integers too large for numpy to hold exactly, are outside the model. *)

(** Python's [x < y] on numbers. *)
Definition Qltb (x y : Q) : bool :=
  (Qnum x * QDen y <? Qnum y * QDen x)%Z.

(** [len(l)] as a number, [range(n)] and [np.arange(n)] as number lists. *)
Definition len {A} (l : list A) : Q := inject_Z (Z.of_nat (length l)).
Definition range (n : nat) : list Q := (fun i => inject_Z (Z.of_nat i)) <$> seq 0 n.

(** ** Data model *)

Unset Elimination Schemes.
(** A JSON value, as [json.load] returns it and [json.dump] accepts it. *)
Inductive json :=
| JNull
| JBool (b : bool)
| JNum (q : Q)
| JStr (s : string)
| JArr (items : list json)
| JObj (members : list (string * json)).
Set Elimination Schemes.

(** A building record is a dict.  The three keys the script reads are fields
    of their own: [None] stands for an absent key, and a key that is present
    holds a value of the type the data model gives it (a string name, a
    numeric score, a string type).  All other keys, nested ones included, are
    kept in [other_keys]; the script never reads them. *)
Record building := Building {
  building_name : option string;
  fire_risk_score : option Q;
  building_type : option string;
  other_keys : list (string * json)
}.

(** ** pyplot figures *)

Inductive color :=
| Hex (code : string)      (* a colour given as '#RRGGBB' *)
| Husl (i n : nat).        (* entry [i] of [sns.color_palette("husl", n)] *)

(** A cell of a pandas column, and what is drawn from one: [None] is the
    [NaN] pandas stores where a record lacks the key. *)
Abbreviation cell A := (option A) (only parsing).

(** One call on the current figure, with the arguments the script passes. *)
Inductive artist :=
| Bar (x : list Q) (height : list (cell Q)) (width : Q)
      (label : cell string) (colors : list color)
| XTicks (ticks : list Q) (labels : list (cell string))
| XLabel (s : string)
| YLabel (s : string)
| Title (s : string)
| Legend (title : string)
| AxHLine (y : Q) (c : color)
| Text (x y : Q) (s : string) (c : color)
| Annotate (text : Q) (xy : Q * Q)
| TightLayout
| Grid.

Record figure := Figure {
  figsize : Q * Q;
  artists : list artist       (* in call order *)
}.

(** ** The world the script runs in *)

(** What a file holds.  Of the files [json.load] accepts, only arrays of
    records are described: a file holding other JSON (an object, a number,
    an array of something else) has no counterpart here, and no statement
    below speaks of one. *)
Inductive content :=
| CJson (data : list building)  (* a JSON array of building records *)
| CUnparsable (msg : string)    (* a file [json.load] rejects, with its message *)
| CImage (fig : figure).        (* a figure saved by [plt.savefig] *)

Record world := World {
  fs : gmap string content;     (* files of the working directory *)
  figures : list figure;        (* pyplot's figures, the current one first *)
  stdout : list string          (* lines printed so far, oldest first *)
}.

Inductive exn :=
| FileNotFoundError (path : string)
| ValueError (msg : string)     (* JSONDecodeError and UnicodeDecodeError *)
| KeyError (key : string)
| IndexError
| TypeError (msg : string).

(** [str(e)] *)
Definition exn_message (e : exn) : string :=
  match e with
  | FileNotFoundError path => "[Errno 2] No such file or directory: '" +:+ path +:+ "'"
  | ValueError msg => msg
  | KeyError key => "'" +:+ key +:+ "'"
  | IndexError => "list index out of range"
  | TypeError msg => msg
  end.

(** What a Python function returns: a value or a raised exception. *)
Inductive outcome (A : Type) :=
| Return (a : A)
| Raise (e : exn).
Arguments Return {A} a.
Arguments Raise {A} e.

#[global] Instance outcome_ret : MRet outcome := fun A a => Return a.
#[global] Instance outcome_bind : MBind outcome := fun A B f m =>
  match m with
  | Return a => f a
  | Raise e => Raise e
  end.
#[global] Instance outcome_fmap : FMap outcome := fun A B f m =>
  match m with
  | Return a => Return (f a)
  | Raise e => Raise e
  end.

(** A statement: it runs in a world and leaves a world, also when it raises. *)
Definition M (A : Type) : Type := world -> outcome A * world.

#[global] Instance M_ret : MRet M := fun A a w => (Return a, w).
#[global] Instance M_bind : MBind M := fun A B f m w =>
  match m w with
  | (Return a, w') => f a w'
  | (Raise e, w') => (Raise e, w')
  end.

(** An expression that touches no state. *)
Definition pure {A} (o : outcome A) : M A := fun w => (o, w).

(** [try: body except Exception as e: handler] *)
Definition try_except {A} (body : M A) (handler : exn -> M A) : M A := fun w =>
  match body w with
  | (Return a, w') => (Return a, w')
  | (Raise e, w') => handler e w'
  end.

(** [for x in l: body] *)
Fixpoint for_each {A} (l : list A) (body : A -> M unit) : M unit :=
  match l with
  | [] => mret tt
  | x :: l' => body x;; for_each l' body
  end.

(** [enumerate(l)] *)
Definition enumerate {A} (l : list A) : list (nat * A) := zip (seq 0 (length l)) l.

(** *** Built-ins and the file system *)

Definition print (line : string) : M unit := fun w =>
  (Return tt, World (fs w) (figures w) (stdout w ++ [line])).

(** [Path(p).exists()] *)
Definition path_exists (p : string) : M bool := fun w =>
  (Return (bool_decide (is_Some (fs w !! p))), w).

(** [with open(p, 'w') as f: json.dump(data, f, indent=2)] *)
Definition json_dump_to (p : string) (data : list building) : M unit := fun w =>
  (Return tt, World (<[p := CJson data]> (fs w)) (figures w) (stdout w)).

(** [l[i]] on a list, for a non-negative index. *)
Definition list_getitem {A} (l : list A) (i : nat) : outcome A :=
  match l !! i with
  | Some x => Return x
  | None => Raise IndexError
  end.

(** [b[key]] on a record, for each of the keys the script reads. *)
Definition getitem {A} (field : building -> option A) (key : string)
    (b : building) : outcome A :=
  match field b with
  | Some v => Return v
  | None => Raise (KeyError key)
  end.

(** *** pyplot *)

(** The figure pyplot creates when a call finds none. *)
Definition default_figure : figure := Figure (6.4, 4.8)%Q [].

(** [plt.figure(figsize=size)]: a new figure, which becomes the current. *)
Definition plt_figure (size : Q * Q) : M unit := fun w =>
  (Return tt, World (fs w) (Figure size [] :: figures w) (stdout w)).

Definition add_artist (a : artist) (f : figure) : figure :=
  Figure (figsize f) (artists f ++ [a]).

(** Any drawing call of pyplot: it adds to the current figure. *)
Definition plt_draw (a : artist) : M unit := fun w =>
  (Return tt,
   World (fs w)
         (match figures w with
          | [] => [add_artist a default_figure]
          | f :: fs' => add_artist a f :: fs'
          end)
         (stdout w)).

(** [plt.savefig(p, dpi=300, bbox_inches='tight')] *)
Definition plt_savefig (p : string) : M unit := fun w =>
  let figs := match figures w with [] => [default_figure] | _ => figures w end in
  (Return tt,
   World (<[p := CImage (default default_figure (head figs))]> (fs w)) figs (stdout w)).

(** *** pandas and seaborn *)

(** [df[key]] on [df = pd.DataFrame(records)], restricted to [rows]: the
    columns of the frame are the keys that occur in some record, and a record
    without the key has [NaN] in that column. *)
Definition has_column {A} (field : building -> option A)
    (records : list building) : bool :=
  existsb (fun b => bool_decide (is_Some (field b))) records.

Definition df_column {A} (field : building -> option A) (key : string)
    (records rows : list building) : outcome (list (cell A)) :=
  if has_column field records
  then Return (field <$> rows)
  else Raise (KeyError key).

(** [Series.unique()]: the distinct values in order of first appearance;
    all [NaN] cells count as one value. *)
Fixpoint unique {A} `{EqDecision A} (l : list A) : list A :=
  match l with
  | [] => []
  | x :: l' => x :: filter (fun y => y <> x) (unique l')
  end.

(** [column == value], cell by cell: [NaN] is equal to nothing. *)
Definition cell_eqb (c v : cell string) : bool :=
  match c, v with
  | Some s, Some s' => bool_decide (s = s')
  | _, _ => false
  end.

(** [sns.color_palette("husl", n)] *)
Definition color_palette_husl (n : nat) : list color := (fun i => Husl i n) <$> seq 0 n.

(** ** The script *)

(** [load_buildings_data(filepath)], lines 8-11. *)
Definition load_buildings_data (filepath : string) : M (list building) := fun w =>
  match fs w !! filepath with
  | None => (Raise (FileNotFoundError filepath), w)
  | Some (CJson data) => (Return data, w)
  | Some (CUnparsable msg) => (Raise (ValueError msg), w)
  | Some (CImage _) =>
      (Raise (ValueError "'utf-8' codec can't decode byte 0x89 in position 0: invalid start byte"), w)
  end.

(** [get_color_mapping(score)], lines 13-20. *)
Definition get_color_mapping (score : Q) : string :=
  if Qltb score 33 then "#10B981"
  else if Qltb score 66 then "#F59E0B"
  else "#EF4444".

(** The three branches of [get_color_mapping], each with the condition under
    which the [if]/[elif]/[else] chain reaches it and the colour it returns. *)
Inductive branch := LowRisk | MediumRisk | HighRisk.

Definition branch_guard (b : branch) (score : Q) : Prop :=
  match b with
  | LowRisk => (score < 33)%Q
  | MediumRisk => (33 <= score)%Q /\ (score < 66)%Q
  | HighRisk => (66 <= score)%Q
  end.

Definition branch_color (b : branch) : string :=
  match b with
  | LowRisk => "#10B981"
  | MediumRisk => "#F59E0B"
  | HighRisk => "#EF4444"
  end.

(** What the two chart functions return: the [plt] module, or [None]. *)
Inductive pyobj := PyNone | Plt.

(** [sample_data] of [main], lines 135-274. *)
Definition sample_building (name : string) (score : Q) (lat lon : Q)
    (type : string) (sprinkler_full sprinkler_partial duct evac room : bool)
    (drills electricity steam chilled domestic : Q) : building :=
  Building (Some name) (Some score) (Some type)
    [ ("address", JStr (name +:+ ", Davis, CA 95616"));
      ("latitude", JNum lat);
      ("longitude", JNum lon);
      ("fire_safety", JObj
         [ ("sprinkler", JObj [("full", JBool sprinkler_full);
                               ("partial", JBool sprinkler_partial)]);
           ("alarm", JObj [("smoke", JBool true);
                           ("duct", JBool duct);
                           ("manual_pull", JBool true);
                           ("evac_device", JBool evac)]);
           ("fire_separation", JObj [("corridor", JBool true);
                                     ("room", JBool room)]) ]);
      ("num_fire_drills", JNum drills);
      ("electricity", JNum electricity);
      ("steam", JNum steam);
      ("chilled_water", JNum chilled);
      ("domestic_water", JNum domestic) ].

Definition sample_data : list building :=
  [ sample_building "Tercero Residence Halls" 72 38.5362 (-121.7656) "Residential"
      false true false false false 1 620000 1200 800 950;
    sample_building "Segundo Residence Halls" 65 38.5396 (-121.7587) "Residential"
      true false true false true 2 580000 1100 700 900;
    sample_building "Sciences Laboratory Building" 45 38.5376 (-121.7499) "Academic"
      true false true true true 2 480000 900 600 750;
    sample_building "Memorial Union" 31 38.5421 (-121.7490) "Administrative"
      true false true true true 2 320000 600 400 500;
    sample_building "Shields Library" 28 38.5404 (-121.7490) "Academic"
      true false true true true 2 290000 550 380 450;
    sample_building "Meyer Hall" 52 38.5342 (-121.7575) "Research"
      false true false false false 1 510000 950 650 800 ]%Q.

(** ** numpy's sorting contract *)

(** The values [a[i]] for [i] in [idx], in that order. *)
Definition values_at (a : list Q) (idx : list nat) : list Q := omap (a !!.) idx.

(** [idx] is an answer of [np.argsort(a)]: it holds each index of [a] once,
    and reading [a] through it gives the values in non-decreasing order. *)
Definition is_argsort (a : list Q) (idx : list nat) : Prop :=
  idx ≡ₚ seq 0 (length a) /\ Sorted Qle (values_at a idx).

(** One function that meets the contract: insertion sort on the indices,
    which keeps equal values in their input order. *)
Fixpoint insert_index (a : list Q) (i : nat) (sorted : list nat) : list nat :=
  match sorted with
  | [] => [i]
  | j :: rest =>
      if Qltb (default 0%Q (a !! j)) (default 0%Q (a !! i))
      then j :: insert_index a i rest
      else i :: j :: rest
  end.

Definition insertion_argsort (a : list Q) : list nat :=
  foldr (insert_index a) [] (seq 0 (length a)).

(** ** Example inputs *)

(** A record with a name, a score and, possibly, a type, and nothing else. *)
Definition record (name : string) (score : Q) (type : option string) : building :=
  Building (Some name) (Some score) type [].

(** Two records without a [building_type] key. *)
Definition untyped_records : list building :=
  [ record "Hall A" 40 None; record "Hall B" 70 None ].

(** Two records of one type, the lower score first. *)
Definition ascending_records : list building :=
  [ record "Lab A" 10 (Some "Academic"); record "Lab B" 20 (Some "Academic") ].

(** A record without a [building_name] key. *)
Definition nameless_records : list building :=
  [ Building None (Some 5%Q) (Some "Academic") [] ].

(** A working directory with nothing in it, one whose [buildings.json] holds
    the given records, and one whose [buildings.json] is not JSON; no figure
    yet, nothing printed yet. *)
Definition empty_world : world := World ∅ [] [].

Definition world_with (data : list building) : world :=
  World {[ "buildings.json" := CJson data ]} [] [].

Definition world_unparsable : world :=
  World {[ "buildings.json" := CUnparsable "Expecting value: line 1 column 1 (char 0)" ]}
        [] [].

(** The order [insertion_argsort] sorts the indices by. *)
Definition index_le (a : list Q) (i j : nat) : Prop :=
  (default 0 (a !! i) <= default 0 (a !! j))%Q.

Section Script.

(** [np.argsort] on a list of numbers.  Its default algorithm is
    deterministic but not stable, so the order it gives to equal scores is
    numpy's own business; the script is modelled for any function that meets
    numpy's contract, [is_argsort] above. *)
Variable np_argsort : list Q -> list nat.
Hypothesis np_argsort_spec : forall a, is_argsort a (np_argsort a).

#[local] Set Default Proof Using "Type".

(** Whether [plt.bar] accepts a [label] that is neither a string nor a list:
    recent matplotlib versions take the length of such a label, which raises
    [TypeError] on the float [NaN]; older ones store it. *)
Variable nan_label_ok : bool.

(** [plt.bar(x, height, width=width, label=label, color=color)] on heights
    that are rational numbers or [NaN]; what matplotlib does with heights
    too large for a float is not described. *)
Definition plt_bar (x : list Q) (height : list (cell Q)) (width : Q)
    (label : cell string) (colors : list color) : M unit :=
  match label with
  | None =>
      if nan_label_ok then plt_draw (Bar x height width label colors)
      else pure (Raise (TypeError "object of type 'float' has no len()"))
  | Some _ => plt_draw (Bar x height width label colors)
  end.

(** [create_risk_score_chart(buildings_data, output_file)], lines 22-72. *)
Definition create_risk_score_chart (buildings_data : list building)
    (output_file : string) : M pyobj :=
  building_names ← pure (mapM (getitem building_name "building_name") buildings_data);
  risk_scores ← pure (mapM (getitem fire_risk_score "fire_risk_score") buildings_data);
  let sorted_indices := reverse (np_argsort risk_scores) in
  building_names ← pure (mapM (list_getitem building_names) sorted_indices);
  risk_scores ← pure (mapM (list_getitem risk_scores) sorted_indices);
  let bar_colors := get_color_mapping <$> risk_scores in
  plt_figure (Qmax 12 (len building_names * 0.5), 8)%Q;;
  plt_bar (range (length building_names)) (Some <$> risk_scores) 0.8%Q (Some "")
          (Hex <$> bar_colors);;
  plt_draw (XTicks (range (length building_names)) (Some <$> building_names));;
  plt_draw (XLabel "Building Name");;
  plt_draw (YLabel "Fire Risk Score");;
  plt_draw (Title "UC Davis Buildings Fire Risk Assessment");;
  plt_draw (AxHLine 33 (Hex "#10B981"));;
  plt_draw (AxHLine 66 (Hex "#EF4444"));;
  plt_draw (Text (len building_names - 1) 20 "Low Risk" (Hex "#10B981"));;
  plt_draw (Text (len building_names - 1) 50 "Medium Risk" (Hex "#F59E0B"));;
  plt_draw (Text (len building_names - 1) 85 "High Risk" (Hex "#EF4444"));;
  for_each (enumerate (zip (take 3 building_names) (take 3 risk_scores)))
    (fun '(i, (name, score)) =>
       plt_draw (Annotate score (inject_Z (Z.of_nat i), score)));;
  plt_draw TightLayout;;
  plt_draw Grid;;
  plt_savefig output_file;;
  print ("Chart saved as " +:+ output_file);;
  mret Plt.

(** [create_building_type_chart(buildings_data, output_file)], lines 74-125. *)
Definition create_building_type_chart (buildings_data : list building)
    (output_file : string) : M pyobj :=
  first ← pure (list_getitem buildings_data 0);
  if bool_decide (building_type first = None) then
    print "Building type information not available. Skipping grouped chart.";;
    mret PyNone
  else
    let df := buildings_data in
    building_types ← pure (unique <$> df_column building_type "building_type" df df);
    plt_figure (Qmax 14 (len building_types * 4), 10)%Q;;
    let bar_width := (0.8 / len building_types)%Q in
    let colors := color_palette_husl (length building_types) in
    for_each (enumerate (zip building_types colors))
      (fun '(i, (building_type_i, color)) =>
         let type_data := filter (fun b => cell_eqb (building_type b) building_type_i) df in
         let indices := range (length type_data) in
         heights ← pure (df_column fire_risk_score "fire_risk_score" df type_data);
         plt_bar ((fun x => x + inject_Z (Z.of_nat i) * bar_width)%Q <$> indices)
                 heights bar_width building_type_i [color];;
         names ← pure (df_column building_name "building_name" df type_data);
         plt_draw (XTicks ((fun x => x + bar_width * (len building_types - 1) / 2)%Q <$> indices)
                          names));;
    plt_draw (XLabel "Building Name");;
    plt_draw (YLabel "Fire Risk Score");;
    plt_draw (Title "UC Davis Buildings Fire Risk Assessment by Building Type");;
    plt_draw (Legend "Building Type");;
    plt_draw (AxHLine 33 (Hex "#10B981"));;
    plt_draw (AxHLine 66 (Hex "#EF4444"));;
    plt_draw TightLayout;;
    plt_draw Grid;;
    plt_savefig output_file;;
    print ("Grouped chart saved as " +:+ output_file);;
    mret Plt.

(** [main()], lines 127-293. *)
Definition main : M unit :=
  let buildings_file := "buildings.json" in
  present ← path_exists buildings_file;
  (if negb present then
     print ("Sample data file not found. Creating " +:+ buildings_file);;
     json_dump_to buildings_file sample_data
   else mret tt);;
  buildings_data ← load_buildings_data buildings_file;
  create_risk_score_chart buildings_data "risk_scores_chart.png";;
  try_except
    (create_building_type_chart buildings_data "risk_scores_by_type_chart.png";; mret tt)
    (fun e => print ("Couldn't create grouped chart: " +:+ exn_message e));;
  print "Visualization complete!";;
  print "The following files were generated:";;
  print "- risk_scores_chart.png";;
  print "- risk_scores_by_type_chart.png".

(** ** What the statements below talk about *)

(** A record that has the two keys [create_risk_score_chart] reads. *)
Definition has_name_and_score (b : building) : Prop :=
  is_Some (building_name b) /\ is_Some (fire_risk_score b).

(** Lines 25-31 of [create_risk_score_chart] on their own: the names and the
    scores, reordered by descending score. *)
Definition sorted_names_and_scores (buildings_data : list building)
    : outcome (list string * list Q) :=
  building_names ← mapM (getitem building_name "building_name") buildings_data;
  risk_scores ← mapM (getitem fire_risk_score "fire_risk_score") buildings_data;
  let sorted_indices := reverse (np_argsort risk_scores) in
  building_names ← mapM (list_getitem building_names) sorted_indices;
  risk_scores ← mapM (list_getitem risk_scores) sorted_indices;
  mret (building_names, risk_scores).

(** The annotation line 61 draws for one entry of the top three. *)
Definition annotation (entry : nat * (string * Q)) : artist :=
  let '(i, (name, score)) := entry in
  Annotate score (inject_Z (Z.of_nat i), score).

(** The figure lines 36-66 draw from the reordered names and scores. *)
Definition risk_score_figure (building_names : list string) (risk_scores : list Q)
    : figure :=
  Figure (Qmax 12 (len building_names * 0.5), 8)%Q
    ([ Bar (range (length building_names)) (Some <$> risk_scores) 0.8%Q (Some "")
           (Hex <$> (get_color_mapping <$> risk_scores));
       XTicks (range (length building_names)) (Some <$> building_names);
       XLabel "Building Name";
       YLabel "Fire Risk Score";
       Title "UC Davis Buildings Fire Risk Assessment";
       AxHLine 33 (Hex "#10B981");
       AxHLine 66 (Hex "#EF4444");
       Text (len building_names - 1) 20 "Low Risk" (Hex "#10B981");
       Text (len building_names - 1) 50 "Medium Risk" (Hex "#F59E0B");
       Text (len building_names - 1) 85 "High Risk" (Hex "#EF4444") ] ++
     (annotation <$> enumerate (zip (take 3 building_names) (take 3 risk_scores))) ++
     [ TightLayout; Grid ]).

(** One round of the loop of lines 97-105, for the entry [(i, (type, color))]
    of [enumerate(zip(building_types, colors))]: the rows of that type, the
    bars and the ticks it draws for them. *)
Definition type_rows (df : list building) (type : cell string) : list building :=
  filter (fun b => cell_eqb (building_type b) type) df.

Definition type_bar (df : list building) (building_types : list (cell string))
    (entry : nat * (cell string * color)) : artist :=
  let '(i, (type, color)) := entry in
  let bar_width := (0.8 / len building_types)%Q in
  Bar ((fun x => x + inject_Z (Z.of_nat i) * bar_width)%Q
         <$> range (length (type_rows df type)))
      (fire_risk_score <$> type_rows df type) bar_width type [color].

Definition type_ticks (df : list building) (building_types : list (cell string))
    (entry : nat * (cell string * color)) : artist :=
  let '(i, (type, color)) := entry in
  let bar_width := (0.8 / len building_types)%Q in
  XTicks ((fun x => x + bar_width * (len building_types - 1) / 2)%Q
            <$> range (length (type_rows df type)))
         (building_name <$> type_rows df type).

(** The round's outcome and the artists it has drawn by then. *)
Definition type_round (df : list building) (building_types : list (cell string))
    (entry : nat * (cell string * color)) : outcome unit * list artist :=
  if negb (has_column fire_risk_score df) then
    (Raise (KeyError "fire_risk_score"), [])
  else if negb (bool_decide (is_Some (entry.2.1))) && negb nan_label_ok then
    (Raise (TypeError "object of type 'float' has no len()"), [])
  else if negb (has_column building_name df) then
    (Raise (KeyError "building_name"), [type_bar df building_types entry])
  else
    (Return tt, [type_bar df building_types entry; type_ticks df building_types entry]).

(** A loop of such rounds: it stops at the first round that raises. *)
Fixpoint rounds {A} (round : A -> outcome unit * list artist) (l : list A)
    : outcome unit * list artist :=
  match l with
  | [] => (Return tt, [])
  | x :: l' =>
      match round x with
      | (Return _, arts) => (fst (rounds round l'), (arts ++ snd (rounds round l'))%list)
      | (Raise e, arts) => (Raise e, arts)
      end
  end.

(** The artists of the loop of lines 97-105 when no round raises. *)
Definition type_artists (df : list building) (types : list (cell string))
    : list artist :=
  enumerate (zip types (color_palette_husl (length types)))
    ≫= fun entry => [type_bar df types entry; type_ticks df types entry].

(** The figure of the grouped chart, from the artists of its loop. *)
Definition grouped_figure (building_types : list (cell string))
    (loop_artists : list artist) : figure :=
  Figure (Qmax 14 (len building_types * 4), 10)%Q
    (loop_artists ++
     [ XLabel "Building Name";
       YLabel "Fire Risk Score";
       Title "UC Davis Buildings Fire Risk Assessment by Building Type";
       Legend "Building Type";
       AxHLine 33 (Hex "#10B981");
       AxHLine 66 (Hex "#EF4444");
       TightLayout;
       Grid ]).

(** The world after lines 132-276 of [main]: a missing [buildings.json] has
    been created from [sample_data], an existing one is left alone. *)
Definition with_sample (w : world) : world :=
  if bool_decide (is_Some (fs w !! "buildings.json")) then w
  else World (<["buildings.json" := CJson sample_data]> (fs w)) (figures w)
             (stdout w ++ ["Sample data file not found. Creating buildings.json"]).

(** The four lines [main] prints last. *)
Definition closing_lines : list string :=
  [ "Visualization complete!";
    "The following files were generated:";
    "- risk_scores_chart.png";
    "- risk_scores_by_type_chart.png" ].

(** The bars of a figure, each with its position on the x axis. *)
Definition bars_of (a : artist) : list (Q * cell Q) :=
  match a with
  | Bar x height _ _ _ => zip x height
  | _ => []
  end.

Definition plotted_bars (fig : figure) : list (Q * cell Q) :=
  artists fig ≫= bars_of.

(** Read from left to right, the bars never go up. *)
Definition non_increasing_left_to_right (bars : list (Q * cell Q)) : Prop :=
  forall x1 h1 x2 h2,
    (x1, Some h1) ∈ bars -> (x2, Some h2) ∈ bars -> (x1 < x2)%Q -> (h2 <= h1)%Q.

(** ** Further observations on figures *)

(** How alarming a colour of [get_color_mapping] is: green, amber, red. *)
Definition color_rank (c : string) : nat :=
  if decide (c = "#10B981") then 0
  else if decide (c = "#F59E0B") then 1
  else 2.

(** matplotlib cycles through the colours it is given: bar [k] of [n] gets
    colour [k mod len(colors)]. *)
Definition cycle_colors (n : nat) (colors : list color) : list color :=
  omap (fun k => colors !! (k mod length colors)) (seq 0 n).

(** The bars of a figure with their position, height and colour. *)
Definition colored_bars_of (a : artist) : list (Q * (cell Q * color)) :=
  match a with
  | Bar x height _ _ colors => zip x (zip height (cycle_colors (length x) colors))
  | _ => []
  end.

Definition colored_bars (fig : figure) : list (Q * (cell Q * color)) :=
  artists fig ≫= colored_bars_of.

(** The heights of all bars of a figure, in drawing order. *)
Definition heights_of (a : artist) : list (cell Q) :=
  match a with
  | Bar _ height _ _ _ => height
  | _ => []
  end.

Definition bar_heights (fig : figure) : list (cell Q) :=
  artists fig ≫= heights_of.

(** The annotations of a figure: the number written and where. *)
Definition annotation_of (a : artist) : option (Q * (Q * Q)) :=
  match a with
  | Annotate text xy => Some (text, xy)
  | _ => None
  end.

Definition annotations (fig : figure) : list (Q * (Q * Q)) :=
  omap annotation_of (artists fig).

(** The ticks of the x axis: each [plt.xticks] call replaces the ticks set
    before, so the last call is the one the saved image shows. *)
Definition xticks_of (a : artist) : option (list Q * list (cell string)) :=
  match a with
  | XTicks ticks labels => Some (ticks, labels)
  | _ => None
  end.

Definition current_xticks (fig : figure) : option (list Q * list (cell string)) :=
  last (omap xticks_of (artists fig)).

(** The [plt.bar] calls of a figure: one group of bars each. *)
Definition is_bar (a : artist) : bool :=
  match a with
  | Bar _ _ _ _ _ => true
  | _ => false
  end.

Definition bar_groups (fig : figure) : list artist :=
  filter (fun a => is_bar a) (artists fig).

(** ** More example inputs *)

(** A record without a [fire_risk_score] key followed by one without a
    [building_name] key. *)
Definition scoreless_then_nameless : list building :=
  [ Building (Some "Hall A") None None [];
    Building None (Some 5%Q) None [] ].

(** Records that all have a name, one of them without a score. *)
Definition scoreless_records : list building :=
  [ record "Hall A" 40 None; Building (Some "Hall B") None None [] ].

(** A typed record followed by one without a [building_type] key. *)
Definition partly_typed_records : list building :=
  [ record "Lab A" 10 (Some "Academic"); record "Hall B" 70 None ].

(** * Properties *)

(** ** Numbers and lists *)

Lemma Qltb_lt (x y : Q) : Qltb x y = true <-> (x < y)%Q.
Proof. unfold Qltb, Qlt. apply Z.ltb_lt. Qed.

Lemma Qltb_ge (x y : Q) : Qltb x y = false <-> (y <= x)%Q.
Proof. unfold Qltb, Qle. apply Z.ltb_ge. Qed.

#[local] Instance Qle_transitive : Transitive Qle.
Proof. intros x y z. apply Qle_trans. Qed.

#[local] Instance Qge_transitive : Transitive (flip Qle).
Proof. intros x y z Hxy Hyz. unfold flip in *. eapply Qle_trans; eauto. Qed.

Lemma inject_nat_lt (i j : nat) :
  (inject_Z (Z.of_nat i) < inject_Z (Z.of_nat j))%Q -> i < j.
Proof. rewrite <- Zlt_Qlt. lia. Qed.

Lemma lookup_range (n i : nat) (x : Q) :
  range n !! i = Some x <-> x = inject_Z (Z.of_nat i) /\ i < n.
Proof.
  unfold range. rewrite list_lookup_fmap_Some. split.
  - intros (j & Hx & Hj). apply lookup_seq in Hj as [-> ?]. simpl in Hx. auto.
  - intros [-> Hi]. exists i. split; [done|]. by apply lookup_seq.
Qed.

Lemma length_range (n : nat) : length (range n) = n.
Proof. unfold range. by rewrite length_fmap, length_seq. Qed.

(** [mapM] in the [outcome] monad: a list comprehension whose element
    expression may raise. *)
Lemma mapM_outcome_cons {A B} (f : A -> outcome B) (x : A) (l : list A) :
  mapM f (x :: l) =
    match f x with
    | Return y =>
        match mapM f l with
        | Return k => Return (y :: k)
        | Raise e => Raise e
        end
    | Raise e => Raise e
    end.
Proof. reflexivity. Qed.

(** Reading a list through in-range indices. *)
Section reading.
Context {A : Type}.
Implicit Types (l : list A) (idx : list nat).

Lemma omap_lookup_length l idx :
  Forall (fun i => i < length l) idx -> length (omap (l !!.) idx) = length idx.
Proof.
  induction 1 as [|i idx Hi _ IH]; [done|]. csimpl.
  destruct (lookup_lt_is_Some_2 l i Hi) as [x ->]. csimpl. by rewrite IH.
Qed.

Lemma mapM_list_getitem l idx :
  Forall (fun i => i < length l) idx ->
  mapM (list_getitem l) idx = Return (omap (l !!.) idx).
Proof.
  induction 1 as [|i idx Hi _ IH]; [done|].
  rewrite mapM_outcome_cons, IH. unfold list_getitem. csimpl.
  by destruct (lookup_lt_is_Some_2 l i Hi) as [x ->].
Qed.

Lemma mapM_list_getitem_raise l idx e :
  mapM (list_getitem l) idx = Raise e -> ¬ Forall (fun i => i < length l) idx.
Proof. intros He Hall. by rewrite mapM_list_getitem in He. Qed.

Lemma omap_lookup_seq l : omap (l !!.) (seq 0 (length l)) = l.
Proof.
  induction l as [|x l IH] using rev_ind; [done|].
  rewrite length_app. simpl length.
  rewrite Nat.add_1_r, seq_S, omap_app. f_equal.
  - rewrite <- IH at 2. apply list_omap_ext, Forall2_same_length_lookup.
    split; [done|]. intros i j j' Hj Hj'. simplify_eq.
    apply lookup_seq in Hj as [-> ?]. by rewrite lookup_app_l.
  - csimpl. by rewrite lookup_app_r, Nat.sub_diag by lia.
Qed.

Lemma omap_lookup_Permutation l idx :
  idx ≡ₚ seq 0 (length l) -> omap (l !!.) idx ≡ₚ l.
Proof. intros ->. by rewrite omap_lookup_seq. Qed.

Lemma omap_lookup_reverse l idx :
  omap (l !!.) (reverse idx) = reverse (omap (l !!.) idx).
Proof.
  induction idx as [|i idx IH]; [done|].
  rewrite reverse_cons, omap_app, IH. csimpl.
  destruct (l !! i); csimpl; [by rewrite reverse_cons|by rewrite app_nil_r].
Qed.

Lemma argsort_in_range l idx :
  idx ≡ₚ seq 0 (length l) -> Forall (fun i => i < length l) idx.
Proof.
  intros Hp. apply Forall_forall. intros i Hi.
  rewrite Hp in Hi. apply elem_of_seq in Hi. lia.
Qed.
End reading.

Lemma omap_lookup_zip {A B} (l : list A) (k : list B) (idx : list nat) :
  length l = length k ->
  omap (zip l k !!.) idx = zip (omap (l !!.) idx) (omap (k !!.) idx).
Proof.
  intros Hlen. induction idx as [|i idx IH]; [done|]. csimpl.
  rewrite lookup_zip_with.
  destruct (l !! i) as [x|] eqn:Hx; csimpl.
  - destruct (k !! i) as [y|] eqn:Hy; csimpl; [by rewrite IH|].
    apply lookup_lt_Some in Hx. apply lookup_ge_None in Hy. lia.
  - destruct (k !! i) as [y|] eqn:Hy; csimpl; [|done].
    apply lookup_lt_Some in Hy. apply lookup_ge_None in Hx. lia.
Qed.

(** In a list in non-increasing order, a later position holds no more than an
    earlier one. *)
Lemma StronglySorted_lookup_ge (l : list Q) (i j : nat) (x y : Q) :
  StronglySorted (flip Qle) l ->
  i < j -> l !! i = Some x -> l !! j = Some y -> (y <= x)%Q.
Proof.
  intros Hs. revert i j. induction Hs as [|z l Hs IH Hz]; intros i j Hij Hi Hj.
  { by rewrite lookup_nil in Hi. }
  destruct j as [|j]; [lia|]. simpl in Hj.
  destruct i as [|i]; simpl in Hi.
  - injection Hi as ->. rewrite Forall_forall in Hz.
    apply (Hz y). by eapply list_elem_of_lookup_2.
  - apply (IH i j); [lia|done..].
Qed.

(** ** Running statements *)

Lemma bind_run {A B} (m : M A) (k : A -> M B) (w : world) :
  (m ≫= k) w =
    match m w with
    | (Return a, w') => k a w'
    | (Raise e, w') => (Raise e, w')
    end.
Proof. reflexivity. Qed.

(** A loop whose body only draws adds its artists, in order, to the current
    figure. *)
Lemma for_each_draw {A} (l : list A) (body : A -> M unit) (art : A -> artist)
    (files : gmap string content) (f : figure) (figs : list figure) (out : list string) :
  (forall x, body x = plt_draw (art x)) ->
  for_each l body (World files (f :: figs) out) =
    (Return tt, World files (Figure (figsize f) (artists f ++ (art <$> l)) :: figs) out).
Proof.
  intros Hbody. revert f. induction l as [|x l IH]; intros f.
  - simpl. rewrite app_nil_r. by destruct f.
  - simpl. rewrite bind_run, Hbody. simpl. rewrite IH. simpl.
    by rewrite <- app_assoc.
Qed.

Lemma outcome_bind_Return {A B} (a : A) (k : A -> outcome B) : Return a ≫= k = k a.
Proof. reflexivity. Qed.

Lemma pure_run {A} (o : outcome A) (w : world) : pure o w = (o, w).
Proof. reflexivity. Qed.

Lemma plt_figure_bind {B} (size : Q * Q) (k : unit -> M B) (w : world) :
  (plt_figure size ≫= k) w =
    k tt (World (fs w) (Figure size [] :: figures w) (stdout w)).
Proof. reflexivity. Qed.

Lemma plt_draw_bind {B} (a : artist) (k : unit -> M B)
    (files : gmap string content) (f : figure) (figs : list figure) (out : list string) :
  (plt_draw a ≫= k) (World files (f :: figs) out) =
    k tt (World files (Figure (figsize f) (artists f ++ [a]) :: figs) out).
Proof. reflexivity. Qed.

Lemma plt_bar_str x height width (label : string) colors :
  plt_bar x height width (Some label) colors = plt_draw (Bar x height width (Some label) colors).
Proof. reflexivity. Qed.

Lemma plt_savefig_bind {B} (p : string) (k : unit -> M B)
    (files : gmap string content) (f : figure) (figs : list figure) (out : list string) :
  (plt_savefig p ≫= k) (World files (f :: figs) out) =
    k tt (World (<[p := CImage f]> files) (f :: figs) out).
Proof. reflexivity. Qed.

Lemma print_bind {B} (line : string) (k : unit -> M B) (w : world) :
  (print line ≫= k) w = k tt (World (fs w) (figures w) (stdout w ++ [line])).
Proof. reflexivity. Qed.

Lemma for_each_draw_bind {A B} (l : list A) (body : A -> M unit) (art : A -> artist)
    (k : unit -> M B)
    (files : gmap string content) (f : figure) (figs : list figure) (out : list string) :
  (forall x, body x = plt_draw (art x)) ->
  (for_each l body ≫= k) (World files (f :: figs) out) =
    k tt (World files (Figure (figsize f) (artists f ++ (art <$> l)) :: figs) out).
Proof. intros Hbody. rewrite bind_run. erewrite for_each_draw; done. Qed.

Lemma create_risk_score_chart_run (buildings_data : list building)
    (output_file : string) (w : world) :
  create_risk_score_chart buildings_data output_file w =
    match sorted_names_and_scores buildings_data with
    | Return (names, scores) =>
        (Return Plt,
         World (<[output_file := CImage (risk_score_figure names scores)]> (fs w))
               (risk_score_figure names scores :: figures w)
               (stdout w ++ ["Chart saved as " +:+ output_file]))
    | Raise e => (Raise e, w)
    end.
Proof.
  unfold create_risk_score_chart, sorted_names_and_scores.
  rewrite bind_run, pure_run.
  destruct (mapM (getitem building_name "building_name") buildings_data)
    as [names|e]; [|reflexivity].
  rewrite bind_run, pure_run, outcome_bind_Return.
  destruct (mapM (getitem fire_risk_score "fire_risk_score") buildings_data)
    as [scores|e]; [|reflexivity].
  cbv zeta. rewrite bind_run, pure_run, outcome_bind_Return.
  destruct (mapM (list_getitem names) (reverse (np_argsort scores)))
    as [names'|e]; [|reflexivity].
  rewrite bind_run, pure_run, outcome_bind_Return.
  destruct (mapM (list_getitem scores) (reverse (np_argsort scores)))
    as [scores'|e]; [|reflexivity].
  rewrite outcome_bind_Return.
  rewrite plt_figure_bind, plt_bar_str.
  repeat (rewrite plt_draw_bind; cbv beta).
  rewrite (for_each_draw_bind _ _ annotation); [|intros [i [name score]]; reflexivity].
  repeat (rewrite plt_draw_bind; cbv beta).
  rewrite plt_savefig_bind, print_bind.
  unfold risk_score_figure.
  cbn [mret M_ret fs figures stdout figsize artists app].
  by rewrite <- !app_assoc.
Qed.

(** ** The reordering of lines 25-31 *)

Lemma mapM_getitem_Return {A} (field : building -> option A) (key : string)
    (data : list building) (l : list A) :
  mapM (getitem field key) data = Return l <-> field <$> data = Some <$> l.
Proof.
  revert l. induction data as [|b data IH]; intros l.
  - split; [by intros [= <-]|]. by destruct l.
  - rewrite mapM_outcome_cons. unfold getitem at 1. csimpl.
    destruct (field b) as [v|].
    + destruct (mapM (getitem field key) data) as [k|e].
      * split.
        -- intros [= <-]. csimpl. f_equal. by apply IH.
        -- destruct l as [|v' l]; [done|]. csimpl. intros [= -> Hl].
           f_equal. apply IH in Hl. by injection Hl as ->.
      * split; [done|]. destruct l as [|v' l]; [done|]. csimpl.
        intros [= _ Hl]. by apply IH in Hl.
    + split; [done|]. by destruct l.
Qed.

Lemma mapM_getitem_is_Some {A} (field : building -> option A) (key : string)
    (data : list building) :
  Forall (fun b => is_Some (field b)) data ->
  exists l, mapM (getitem field key) data = Return l /\ field <$> data = Some <$> l.
Proof.
  induction 1 as [|b data [v Hv] _ (l & Hl & Heq)]; [by exists []|].
  exists (v :: l). rewrite mapM_outcome_cons, Hl. unfold getitem. rewrite Hv.
  split; [done|]. csimpl. by rewrite Hv, Heq.
Qed.

Lemma mapM_getitem_Raise {A} (field : building -> option A) (key : string)
    (data : list building) (e : exn) :
  mapM (getitem field key) data = Raise e -> e = KeyError key.
Proof.
  induction data as [|b data IH]; [done|].
  rewrite mapM_outcome_cons. unfold getitem at 1.
  destruct (field b); [|by intros [= <-]].
  destruct (mapM (getitem field key) data); [done|]. intros [= <-]. by apply IH.
Qed.

Lemma zip_fmap_Some {A B} (l : list A) (k : list B) :
  zip (Some <$> l) (Some <$> k) = prod_map Some Some <$> zip l k.
Proof.
  revert k. induction l as [|x l IH]; intros [|y k]; csimpl; [done..|].
  by rewrite IH.
Qed.

Lemma fmap_pair_zip {A B C} (f : A -> B) (g : A -> C) (l : list A) :
  (fun x => (f x, g x)) <$> l = zip (f <$> l) (g <$> l).
Proof. induction l as [|x l IH]; csimpl; [done|]. by rewrite IH. Qed.

Lemma fmap_Some_length {A B} (f : A -> option B) (data : list A) (l : list B) :
  f <$> data = Some <$> l -> length l = length data.
Proof. intros H%(f_equal length). by rewrite !length_fmap in H. Qed.

(** On records that all have a name and a score, the reordering returns;
    it returns the input's (name, score) pairs, each pair kept together, in
    non-increasing order of score. *)
Lemma sorted_names_and_scores_Return (data : list building) :
  Forall has_name_and_score data ->
  exists names scores,
    sorted_names_and_scores data = Return (names, scores) /\
    length names = length data /\
    length scores = length data /\
    zip (Some <$> names) (Some <$> scores)
      ≡ₚ (fun b => (building_name b, fire_risk_score b)) <$> data /\
    Sorted (flip Qle) scores.
Proof using np_argsort_spec.
  intros Hwf.
  destruct (mapM_getitem_is_Some building_name "building_name" data)
    as (names0 & Hn & Hnames).
  { eapply Forall_impl; [exact Hwf|]. by intros b [? _]. }
  destruct (mapM_getitem_is_Some fire_risk_score "fire_risk_score" data)
    as (scores0 & Hs & Hscores).
  { eapply Forall_impl; [exact Hwf|]. by intros b [_ ?]. }
  pose proof (fmap_Some_length _ _ _ Hnames) as Hlen_n.
  pose proof (fmap_Some_length _ _ _ Hscores) as Hlen_s.
  destruct (np_argsort_spec scores0) as [Hperm Hsorted].
  set (idx := np_argsort scores0) in *.
  assert (Hidx : reverse idx ≡ₚ seq 0 (length scores0)).
  { by rewrite reverse_Permutation. }
  exists (omap (names0 !!.) (reverse idx)), (omap (scores0 !!.) (reverse idx)).
  split; [|split; [|split; [|split]]].
  - unfold sorted_names_and_scores. rewrite Hn, Hs. csimpl. fold idx.
    rewrite (mapM_list_getitem names0), (mapM_list_getitem scores0).
    + reflexivity.
    + by apply argsort_in_range.
    + apply argsort_in_range. by rewrite Hlen_n, <- Hlen_s.
  - rewrite omap_lookup_length.
    + rewrite Hidx, length_seq. done.
    + apply argsort_in_range. by rewrite Hlen_n, <- Hlen_s.
  - rewrite omap_lookup_length; [|by apply argsort_in_range].
    rewrite Hidx, length_seq. done.
  - rewrite fmap_pair_zip, Hnames, Hscores, !zip_fmap_Some.
    apply fmap_Permutation.
    rewrite <- omap_lookup_zip by lia.
    apply omap_lookup_Permutation.
    rewrite length_zip_with, Hlen_n, Hlen_s, Nat.min_id, <- Hlen_s. done.
  - rewrite omap_lookup_reverse. by apply Sorted_reverse.
Qed.

(** Without the hypothesis, the only exception line 25-31 raise is the
    [KeyError] of a missing key. *)
Lemma sorted_names_and_scores_Raise (data : list building) (e : exn) :
  sorted_names_and_scores data = Raise e ->
  e = KeyError "building_name" \/ e = KeyError "fire_risk_score".
Proof using np_argsort_spec.
  unfold sorted_names_and_scores.
  destruct (mapM (getitem building_name _) data) as [names|e1] eqn:Hn; csimpl.
  2: { intros [= <-]. left. by eapply mapM_getitem_Raise. }
  destruct (mapM (getitem fire_risk_score _) data) as [scores|e2] eqn:Hs; csimpl.
  2: { intros [= <-]. right. by eapply mapM_getitem_Raise. }
  apply mapM_getitem_Return in Hn, Hs.
  apply fmap_Some_length in Hn, Hs.
  destruct (np_argsort_spec scores) as [Hperm _].
  rewrite (mapM_list_getitem names), (mapM_list_getitem scores).
  - done.
  - apply argsort_in_range. by rewrite reverse_Permutation.
  - apply argsort_in_range. by rewrite reverse_Permutation, Hn, <- Hs.
Qed.

(** ** The colour classifier *)

Lemma get_color_mapping_low (score : Q) :
  (score < 33)%Q -> get_color_mapping score = "#10B981".
Proof.
  intros H. unfold get_color_mapping.
  apply Qltb_lt in H. by rewrite H.
Qed.

Lemma get_color_mapping_medium (score : Q) :
  (33 <= score)%Q -> (score < 66)%Q -> get_color_mapping score = "#F59E0B".
Proof.
  intros H1 H2. unfold get_color_mapping.
  apply Qltb_ge in H1. apply Qltb_lt in H2. by rewrite H1, H2.
Qed.

Lemma get_color_mapping_high (score : Q) :
  (66 <= score)%Q -> get_color_mapping score = "#EF4444".
Proof.
  intros H. unfold get_color_mapping.
  assert (H33 : (33 <= score)%Q).
  { eapply Qle_trans; [|exact H]. discriminate. }
  apply Qltb_ge in H, H33. by rewrite H33, H.
Qed.

(** The three guards cover every score. *)
Lemma score_cases (score : Q) :
  (score < 33)%Q \/ ((33 <= score)%Q /\ (score < 66)%Q) \/ (66 <= score)%Q.
Proof.
  destruct (Qlt_le_dec score 33) as [?|H33]; [by left|].
  destruct (Qlt_le_dec score 66) as [?|H66]; [right; by left|].
  right; by right.
Qed.

(** C1: for every score, [get_color_mapping] returns green below 33, amber
    from 33 (included) up to 66 (excluded) and red from 66 on; 33 itself is
    amber and 66 itself is red. *)
Theorem get_color_mapping_thresholds (score : Q) :
  ((score < 33)%Q -> get_color_mapping score = "#10B981") /\
  ((33 <= score)%Q -> (score < 66)%Q -> get_color_mapping score = "#F59E0B") /\
  ((66 <= score)%Q -> get_color_mapping score = "#EF4444") /\
  get_color_mapping 33 = "#F59E0B" /\
  get_color_mapping 66 = "#EF4444".
Proof.
  repeat split.
  - apply get_color_mapping_low.
  - apply get_color_mapping_medium.
  - apply get_color_mapping_high.
Qed.

(** C8: [get_color_mapping] is total on all scores, negative ones and ones
    above 100 included: each score satisfies the guard of exactly one of the
    three branches, the result is that branch's colour, and so always one of
    the three hex strings. *)
Theorem get_color_mapping_total (score : Q) :
  (exists b : branch,
      branch_guard b score /\
      (forall b', branch_guard b' score -> b' = b) /\
      get_color_mapping score = branch_color b) /\
  get_color_mapping score ∈ ["#10B981"; "#F59E0B"; "#EF4444"] /\
  get_color_mapping (-5) = "#10B981" /\
  get_color_mapping 250 = "#EF4444".
Proof.
  split; [|split; [|done]].
  - destruct (score_cases score) as [H|[[H1 H2]|H]].
    + exists LowRisk. split; [done|]. split.
      * intros [| |]; simpl; [done|intros [H' _]|intros H'].
        -- by apply Qle_not_lt in H'.
        -- exfalso. apply (Qlt_not_le _ _ H). eapply Qle_trans; [|exact H']. discriminate.
      * by apply get_color_mapping_low.
    + exists MediumRisk. split; [done|]. split.
      * intros [| |]; simpl; [intros H'|done|intros H'].
        -- by apply Qle_not_lt in H1.
        -- by apply Qle_not_lt in H'.
      * by apply get_color_mapping_medium.
    + exists HighRisk. split; [done|]. split.
      * intros [| |]; simpl; [intros H'|intros [_ H']|done].
        -- exfalso. apply (Qlt_not_le _ _ H'). eapply Qle_trans; [|exact H]. discriminate.
        -- by apply Qle_not_lt in H.
      * by apply get_color_mapping_high.
  - destruct (score_cases score) as [H|[[H1 H2]|H]].
    + rewrite get_color_mapping_low by done. apply list_elem_of_here.
    + rewrite get_color_mapping_medium by done.
      apply list_elem_of_further, list_elem_of_here.
    + rewrite get_color_mapping_high by done.
      do 2 apply list_elem_of_further. apply list_elem_of_here.
Qed.


(** ** The overall chart *)

Lemma annotations_no_bars (entries : list (nat * (string * Q))) :
  (annotation <$> entries) ≫= bars_of = [].
Proof. induction entries as [|[i [name score]] entries IH]; [done|]. by csimpl. Qed.

Lemma plotted_bars_risk_score_figure (names : list string) (scores : list Q) :
  plotted_bars (risk_score_figure names scores) =
    zip (range (length names)) (Some <$> scores).
Proof.
  unfold plotted_bars, risk_score_figure. cbn [artists].
  rewrite !bind_app, annotations_no_bars. csimpl.
  by rewrite !app_nil_r.
Qed.

Lemma sorted_bars_non_increasing (n : nat) (scores : list Q) :
  Sorted (flip Qle) scores ->
  non_increasing_left_to_right (zip (range n) (Some <$> scores)).
Proof.
  intros Hs%Sorted_StronglySorted; [|apply _].
  intros x1 h1 x2 h2 [i Hi]%list_elem_of_lookup_1 [j Hj]%list_elem_of_lookup_1 Hlt.
  apply lookup_zip_Some in Hi as [Hxi Hhi], Hj as [Hxj Hhj].
  apply lookup_range in Hxi as [-> _], Hxj as [-> _].
  apply inject_nat_lt in Hlt.
  rewrite list_lookup_fmap in Hhi, Hhj.
  destruct (scores !! i) as [y1|] eqn:H1; [|done].
  destruct (scores !! j) as [y2|] eqn:H2; [|done].
  simplify_eq/=. by eapply StronglySorted_lookup_ge.
Qed.

(** What [create_risk_score_chart] does on records that all have a name and
    a score: it returns [plt], having pushed one figure, saved it under
    [output_file] and printed one line; the figure is [risk_score_figure] of
    the input's (name, score) pairs in non-increasing order of score. *)
Lemma create_risk_score_chart_Return (data : list building) (output_file : string)
    (w : world) :
  Forall has_name_and_score data ->
  exists names scores,
    create_risk_score_chart data output_file w =
      (Return Plt,
       World (<[output_file := CImage (risk_score_figure names scores)]> (fs w))
             (risk_score_figure names scores :: figures w)
             (stdout w ++ ["Chart saved as " +:+ output_file])) /\
    length names = length data /\
    length scores = length data /\
    zip (Some <$> names) (Some <$> scores)
      ≡ₚ (fun b => (building_name b, fire_risk_score b)) <$> data /\
    Sorted (flip Qle) scores.
Proof using np_argsort_spec.
  intros Hwf.
  destruct (sorted_names_and_scores_Return data Hwf)
    as (names & scores & Hrun & Hrest).
  exists names, scores. split; [|done].
  by rewrite create_risk_score_chart_run, Hrun.
Qed.

(** C9: the sorting step of [create_risk_score_chart] applies one index
    permutation to the names and to the scores: the tick labels and the bar
    heights of the saved chart, paired position by position, are a
    permutation of the (building_name, fire_risk_score) pairs of the input
    records. *)
Theorem sorting_preserves_name_score_pairs (data : list building)
    (output_file : string) (w : world) :
  Forall has_name_and_score data ->
  exists (names : list string) (scores : list Q) (w' : world),
    create_risk_score_chart data output_file w = (Return Plt, w') /\
    fs w' !! output_file = Some (CImage (risk_score_figure names scores)) /\
    XTicks (range (length data)) (Some <$> names)
      ∈ artists (risk_score_figure names scores) /\
    Bar (range (length data)) (Some <$> scores) 0.8%Q (Some "")
        (Hex <$> (get_color_mapping <$> scores))
      ∈ artists (risk_score_figure names scores) /\
    zip (Some <$> names) (Some <$> scores)
      ≡ₚ (fun b => (building_name b, fire_risk_score b)) <$> data.
Proof using np_argsort_spec.
  intros Hwf.
  destruct (create_risk_score_chart_Return data output_file w Hwf)
    as (names & scores & Hrun & Hn & Hs & Hperm & _).
  eexists names, scores, _. split; [exact Hrun|].
  split; [apply lookup_insert_eq|].
  rewrite <- Hn. unfold risk_score_figure. cbn [artists].
  split; [set_solver|]. split; [set_solver|done].
Qed.

(** ** The grouped chart *)

Lemma for_each_rounds {A} (l : list A) (body : A -> M unit)
    (round : A -> outcome unit * list artist)
    (files : gmap string content) (f : figure) (figs : list figure) (out : list string) :
  (forall x files f figs out,
      body x (World files (f :: figs) out) =
        (fst (round x),
         World files (Figure (figsize f) (artists f ++ snd (round x)) :: figs) out)) ->
  for_each l body (World files (f :: figs) out) =
    (fst (rounds round l),
     World files (Figure (figsize f) (artists f ++ snd (rounds round l)) :: figs) out).
Proof.
  intros Hbody. revert f. induction l as [|x l IH]; intros f.
  - simpl. rewrite app_nil_r. by destruct f.
  - simpl. rewrite bind_run, Hbody.
    destruct (round x) as [[[]|e] arts]; simpl; [|done].
    rewrite IH. simpl. by rewrite <- app_assoc.
Qed.

Lemma type_round_body (df : list building) (building_types : list (cell string))
    (entry : nat * (cell string * color))
    (files : gmap string content) (f : figure) (figs : list figure) (out : list string) :
  (let '(i, (building_type_i, color)) := entry in
   let type_data := filter (fun b => cell_eqb (building_type b) building_type_i) df in
   let indices := range (length type_data) in
   let bar_width := (0.8 / len building_types)%Q in
   heights ← pure (df_column fire_risk_score "fire_risk_score" df type_data);
   plt_bar ((fun x => x + inject_Z (Z.of_nat i) * bar_width)%Q <$> indices)
           heights bar_width building_type_i [color];;
   names ← pure (df_column building_name "building_name" df type_data);
   plt_draw (XTicks ((fun x => x + bar_width * (len building_types - 1) / 2)%Q <$> indices)
                    names)) (World files (f :: figs) out) =
    (fst (type_round df building_types entry),
     World files
       (Figure (figsize f) (artists f ++ snd (type_round df building_types entry)) :: figs)
       out).
Proof.
  destruct entry as [i [type color]]. unfold type_round, df_column, plt_bar. cbv zeta.
  rewrite bind_run, pure_run.
  destruct (has_column fire_risk_score df); simpl negb; cbv iota.
  2: { simpl. rewrite app_nil_r. by destruct f. }
  rewrite bind_run.
  assert (Hdraw : forall a,
    (plt_draw a ≫= fun _ : unit =>
       names ← pure (if has_column building_name df
                     then Return (building_name <$>
                                    filter (fun b => cell_eqb (building_type b) type) df)
                     else Raise (KeyError "building_name"));
       plt_draw (XTicks ((fun x => x + 0.8 / len building_types * (len building_types - 1) / 2)%Q
                           <$> range (length (filter (fun b => cell_eqb (building_type b) type) df)))
                        names)) (World files (f :: figs) out) =
    if negb (has_column building_name df)
    then (Raise (KeyError "building_name"),
          World files (Figure (figsize f) (artists f ++ [a]) :: figs) out)
    else (Return tt,
          World files (Figure (figsize f)
            (artists f ++ [a; type_ticks df building_types (i, (type, color))]) :: figs) out)).
  { intros a. rewrite plt_draw_bind, bind_run, pure_run.
    destruct (has_column building_name df); simpl negb; cbv iota; [|done].
    unfold plt_draw, add_artist, type_ticks, type_rows. simpl. by rewrite <- app_assoc. }
  destruct type as [type|]; simpl bool_decide; simpl negb; simpl andb; cbv iota.
  - rewrite <- bind_run, Hdraw. by destruct (has_column building_name df).
  - destruct nan_label_ok; simpl negb; cbv iota.
    + rewrite <- bind_run, Hdraw. by destruct (has_column building_name df).
    + simpl. rewrite app_nil_r. by destruct f.
Qed.

Lemma has_column_cons {A} (field : building -> option A) (b : building)
    (data : list building) :
  is_Some (field b) -> has_column field (b :: data) = true.
Proof. intros H. unfold has_column. simpl. by rewrite bool_decide_eq_true_2. Qed.

Lemma has_column_Forall {A} (field : building -> option A) (b : building)
    (data : list building) :
  Forall (fun b => is_Some (field b)) (b :: data) -> has_column field (b :: data) = true.
Proof. intros H. apply has_column_cons. by inv H. Qed.

(** What [create_building_type_chart] does, case by case. *)
Lemma create_building_type_chart_run (data : list building) (output_file : string)
    (w : world) :
  create_building_type_chart data output_file w =
    match data with
    | [] => (Raise IndexError, w)
    | first :: _ =>
        if bool_decide (building_type first = None) then
          (Return PyNone,
           World (fs w) (figures w)
                 (stdout w ++ ["Building type information not available. Skipping grouped chart."]))
        else
          let types := unique (building_type <$> data) in
          let loop := rounds (type_round data types)
                        (enumerate (zip types (color_palette_husl (length types)))) in
          match fst loop with
          | Return _ =>
              (Return Plt,
               World (<[output_file := CImage (grouped_figure types (snd loop))]> (fs w))
                     (grouped_figure types (snd loop) :: figures w)
                     (stdout w ++ ["Grouped chart saved as " +:+ output_file]))
          | Raise e =>
              (Raise e,
               World (fs w)
                     (Figure (Qmax 14 (len types * 4), 10)%Q (snd loop) :: figures w)
                     (stdout w))
          end
    end.
Proof.
  destruct data as [|first rest]; [reflexivity|].
  unfold create_building_type_chart. rewrite bind_run, pure_run.
  change (list_getitem (first :: rest) 0) with (Return first).
  cbv iota beta.
  destruct (bool_decide (building_type first = None)) eqn:Hfirst; [reflexivity|].
  apply bool_decide_eq_false in Hfirst.
  cbv zeta. rewrite bind_run, pure_run. unfold df_column.
  rewrite has_column_cons by by destruct (building_type first).
  change (unique <$> Return ?l) with (Return (unique l)). cbv iota beta.
  set (types := unique (building_type <$> first :: rest)).
  rewrite plt_figure_bind, bind_run.
  rewrite (for_each_rounds _ _ (type_round (first :: rest) types)).
  2: { intros entry files f figs out. apply type_round_body. }
  cbn [figsize artists app].
  destruct (rounds _ _) as [[[]|e] arts]; cbn [fst snd]; [|reflexivity].
  repeat (rewrite plt_draw_bind; cbv beta).
  rewrite plt_savefig_bind, print_bind.
  unfold grouped_figure.
  cbn [mret M_ret fs figures stdout figsize artists].
  by rewrite <- !app_assoc.
Qed.

(** ** The whole script *)

Lemma load_buildings_data_world (filepath : string) (w : world) :
  snd (load_buildings_data filepath w) = w.
Proof.
  unfold load_buildings_data. by destruct (fs w !! filepath) as [[]|].
Qed.

Lemma load_buildings_data_json (filepath : string) (w : world) (data : list building) :
  fs w !! filepath = Some (CJson data) ->
  load_buildings_data filepath w = (Return data, w).
Proof. intros H. unfold load_buildings_data. by rewrite H. Qed.

Lemma with_sample_present (w : world) :
  is_Some (fs w !! "buildings.json") -> with_sample w = w.
Proof. intros H. unfold with_sample. by rewrite bool_decide_eq_true_2. Qed.

(** [main], step by step: which exception ends it where, and what it prints
    when it reaches its end. *)
Lemma main_run (w : world) :
  main w =
    match load_buildings_data "buildings.json" (with_sample w) with
    | (Raise e, w1) => (Raise e, w1)
    | (Return data, w1) =>
        match create_risk_score_chart data "risk_scores_chart.png" w1 with
        | (Raise e, w2) => (Raise e, w2)
        | (Return _, w2) =>
            match create_building_type_chart data "risk_scores_by_type_chart.png" w2 with
            | (Return _, w3) =>
                (Return tt, World (fs w3) (figures w3) (stdout w3 ++ closing_lines))
            | (Raise e, w3) =>
                (Return tt,
                 World (fs w3) (figures w3)
                       (stdout w3 ++ ("Couldn't create grouped chart: " +:+ exn_message e)
                                  :: closing_lines))
            end
        end
    end.
Proof.
  unfold main. cbv zeta. rewrite bind_run. unfold path_exists, with_sample.
  assert (Hrest : forall w0,
    (load_buildings_data "buildings.json" ≫= fun buildings_data =>
       create_risk_score_chart buildings_data "risk_scores_chart.png";;
       try_except
         (create_building_type_chart buildings_data "risk_scores_by_type_chart.png";; mret tt)
         (fun e => print ("Couldn't create grouped chart: " +:+ exn_message e));;
       print "Visualization complete!";;
       print "The following files were generated:";;
       print "- risk_scores_chart.png";;
       print "- risk_scores_by_type_chart.png") w0 =
    match load_buildings_data "buildings.json" w0 with
    | (Raise e, w1) => (Raise e, w1)
    | (Return data, w1) =>
        match create_risk_score_chart data "risk_scores_chart.png" w1 with
        | (Raise e, w2) => (Raise e, w2)
        | (Return _, w2) =>
            match create_building_type_chart data "risk_scores_by_type_chart.png" w2 with
            | (Return _, w3) =>
                (Return tt, World (fs w3) (figures w3) (stdout w3 ++ closing_lines))
            | (Raise e, w3) =>
                (Return tt,
                 World (fs w3) (figures w3)
                       (stdout w3 ++ ("Couldn't create grouped chart: " +:+ exn_message e)
                                  :: closing_lines))
            end
        end
    end).
  { intros w0. rewrite bind_run.
    destruct (load_buildings_data "buildings.json" w0) as [[data|e] w1]; [|done].
    rewrite bind_run.
    destruct (create_risk_score_chart data "risk_scores_chart.png" w1) as [[r|e] w2]; [|done].
    rewrite bind_run. unfold try_except at 1. rewrite bind_run.
    destruct (create_building_type_chart data "risk_scores_by_type_chart.png" w2)
      as [[r'|e] w3].
    - unfold closing_lines, print, mret, M_ret, mbind, M_bind. cbn [fs figures stdout].
      by rewrite <- !app_assoc.
    - unfold closing_lines, print, mret, M_ret, mbind, M_bind. cbn [fs figures stdout].
      by rewrite <- !app_assoc. }
  destruct (bool_decide (is_Some (fs w !! "buildings.json"))); simpl negb; cbv iota.
  - rewrite bind_run. cbn [mret M_ret]. apply Hrest.
  - rewrite bind_run, print_bind. unfold json_dump_to. cbn [fs figures stdout].
    apply Hrest.
Qed.

(** *** Which files the script touches *)

Lemma create_risk_score_chart_fs (data : list building) (output_file : string)
    (w : world) (p : string) :
  p <> output_file ->
  fs (snd (create_risk_score_chart data output_file w)) !! p = fs w !! p.
Proof.
  intros Hp. rewrite create_risk_score_chart_run.
  destruct (sorted_names_and_scores data) as [[names scores]|e]; [|done].
  cbn [snd fs]. by rewrite lookup_insert_ne.
Qed.

Lemma create_building_type_chart_fs (data : list building) (output_file : string)
    (w : world) (p : string) :
  p <> output_file ->
  fs (snd (create_building_type_chart data output_file w)) !! p = fs w !! p.
Proof.
  intros Hp. rewrite create_building_type_chart_run.
  destruct data as [|first rest]; [done|].
  destruct (bool_decide (building_type first = None)); [done|].
  cbv zeta. destruct (rounds _ _) as [[[]|e] arts]; cbn [fst snd fs]; [|done].
  by rewrite lookup_insert_ne.
Qed.

Lemma with_sample_fs (w : world) (p : string) :
  fs (with_sample w) !! p =
    if bool_decide (p = "buildings.json" /\ fs w !! "buildings.json" = None)
    then Some (CJson sample_data)
    else fs w !! p.
Proof.
  unfold with_sample.
  destruct (fs w !! "buildings.json") as [c|] eqn:Hfile.
  - rewrite bool_decide_eq_true_2 by done.
    rewrite bool_decide_eq_false_2; [done|]. by intros [_ ?].
  - rewrite bool_decide_eq_false_2 by by intros [? ?].
    cbn [fs]. destruct (decide (p = "buildings.json")) as [->|Hne].
    + rewrite lookup_insert_eq. by rewrite bool_decide_eq_true_2.
    + rewrite lookup_insert_ne by done.
      rewrite bool_decide_eq_false_2; [done|]. by intros [? _].
Qed.

(** C5, amended: the two chart PNGs apart, the only file a run writes is
    [buildings.json], and only when it does not exist yet, in which case it
    is created with the sample data; every other file, and an existing
    [buildings.json], is left as it was, however the run ends. *)
Theorem main_file_effects (w : world) (p : string) :
  p <> "risk_scores_chart.png" ->
  p <> "risk_scores_by_type_chart.png" ->
  fs (snd (main w)) !! p =
    if bool_decide (p = "buildings.json" /\ fs w !! "buildings.json" = None)
    then Some (CJson sample_data)
    else fs w !! p.
Proof.
  intros Hp1 Hp2. rewrite <- with_sample_fs, main_run.
  pose proof (load_buildings_data_world "buildings.json" (with_sample w)) as Hload.
  destruct (load_buildings_data "buildings.json" (with_sample w)) as [[data|e] w1];
    cbn [snd] in Hload; subst w1; [|done].
  pose proof (create_risk_score_chart_fs data "risk_scores_chart.png"
                (with_sample w) p Hp1) as Hfs1.
  destruct (create_risk_score_chart data "risk_scores_chart.png" (with_sample w))
    as [[r|e] w2]; cbn [snd] in Hfs1; [|done].
  pose proof (create_building_type_chart_fs data "risk_scores_by_type_chart.png"
                w2 p Hp2) as Hfs2.
  destruct (create_building_type_chart data "risk_scores_by_type_chart.png" w2)
    as [[r'|e] w3]; cbn [snd fs] in *; congruence.
Qed.

(** C4: the one handler of the script is around the call of
    [create_building_type_chart].  An exception raised by loading the JSON
    file or by [create_risk_score_chart] ends [main] with that exception; an
    exception raised by [create_building_type_chart] is caught: [main] prints
    it, prints its closing lines and returns. *)
Theorem main_exception_handling (w : world) :
  (forall e w1,
      load_buildings_data "buildings.json" (with_sample w) = (Raise e, w1) ->
      main w = (Raise e, w1)) /\
  (forall data w1 e w2,
      load_buildings_data "buildings.json" (with_sample w) = (Return data, w1) ->
      create_risk_score_chart data "risk_scores_chart.png" w1 = (Raise e, w2) ->
      main w = (Raise e, w2)) /\
  (forall data w1 r w2 e w3,
      load_buildings_data "buildings.json" (with_sample w) = (Return data, w1) ->
      create_risk_score_chart data "risk_scores_chart.png" w1 = (Return r, w2) ->
      create_building_type_chart data "risk_scores_by_type_chart.png" w2 = (Raise e, w3) ->
      main w =
        (Return tt,
         World (fs w3) (figures w3)
               (stdout w3 ++ ("Couldn't create grouped chart: " +:+ exn_message e)
                          :: closing_lines))).
Proof.
  split; [|split].
  - intros e w1 Hload. by rewrite main_run, Hload.
  - intros data w1 e w2 Hload Hchart. by rewrite main_run, Hload, Hchart.
  - intros data w1 r w2 e w3 Hload Hchart Hgrouped.
    by rewrite main_run, Hload, Hchart, Hgrouped.
Qed.

(** *** The grouped chart on records that all have a type *)

Lemma elem_of_unique {A} `{EqDecision A} (l : list A) (x : A) :
  x ∈ unique l <-> x ∈ l.
Proof.
  induction l as [|y l IH]; [done|]. simpl.
  rewrite !elem_of_cons, list_elem_of_filter, IH.
  destruct (decide (x = y)) as [->|Hne]; [by split; left|].
  split; [intros [?|[_ ?]]; [done|by right]|intros [?|?]; [done|by right]].
Qed.

Lemma enumerate_lookup {A} (l : list A) (i : nat) (x : A) :
  l !! i = Some x -> enumerate l !! i = Some (i, x).
Proof.
  intros Hx. unfold enumerate. rewrite lookup_zip_with.
  rewrite lookup_seq_lt by by eapply lookup_lt_Some. simpl. by rewrite Hx.
Qed.

Lemma elem_of_enumerate {A} (l : list A) (i : nat) (x : A) :
  (i, x) ∈ enumerate l -> x ∈ l.
Proof. unfold enumerate. apply elem_of_zip_r. Qed.

Lemma palette_lookup (types : list (option string)) (i : nat) (t : option string) :
  types !! i = Some t ->
  zip types (color_palette_husl (length types)) !! i = Some (t, Husl i (length types)).
Proof.
  intros Ht. rewrite lookup_zip_with, Ht. simpl.
  unfold color_palette_husl. rewrite list_lookup_fmap.
  by rewrite lookup_seq_lt by by eapply lookup_lt_Some.
Qed.

Lemma type_round_Return (df : list building) (types : list (option string))
    (entry : nat * (option string * color)) :
  has_column fire_risk_score df = true ->
  has_column building_name df = true ->
  is_Some (entry.2.1) ->
  type_round df types entry =
    (Return tt, [type_bar df types entry; type_ticks df types entry]).
Proof.
  intros Hs Hn Ht. unfold type_round. rewrite Hs, Hn.
  by rewrite bool_decide_eq_true_2.
Qed.

Lemma rounds_Return {A} (round : A -> outcome unit * list artist)
    (arts : A -> list artist) (l : list A) :
  Forall (fun x => round x = (Return tt, arts x)) l ->
  rounds round l = (Return tt, l ≫= arts).
Proof.
  induction 1 as [|x l Hx _ IH]; [done|]. simpl. by rewrite Hx, IH.
Qed.

Lemma create_building_type_chart_Return (data : list building) (output_file : string)
    (w : world) :
  data <> [] ->
  Forall has_name_and_score data ->
  Forall (fun b => is_Some (building_type b)) data ->
  let fig := grouped_figure (unique (building_type <$> data))
               (type_artists data (unique (building_type <$> data))) in
  create_building_type_chart data output_file w =
    (Return Plt,
     World (<[output_file := CImage fig]> (fs w)) (fig :: figures w)
           (stdout w ++ ["Grouped chart saved as " +:+ output_file])).
Proof.
  intros Hne Hwf Htyped fig. subst fig.
  rewrite create_building_type_chart_run.
  destruct data as [|first rest]; [done|].
  rewrite bool_decide_eq_false_2.
  2: { inv Htyped. by destruct (building_type first). }
  cbv zeta.
  rewrite (rounds_Return _ (fun entry =>
    [type_bar (first :: rest) (unique (building_type <$> first :: rest)) entry;
     type_ticks (first :: rest) (unique (building_type <$> first :: rest)) entry])).
  { reflexivity. }
  apply Forall_forall. intros [i [t c]] Hin.
  apply type_round_Return.
  - apply has_column_Forall. eapply Forall_impl; [exact Hwf|]. by intros b [_ ?].
  - apply has_column_Forall. eapply Forall_impl; [exact Hwf|]. by intros b [? _].
  - apply elem_of_enumerate, elem_of_zip_l in Hin.
    apply (proj1 (elem_of_unique _ _)) in Hin.
    apply list_elem_of_fmap in Hin as (b & -> & Hb).
    rewrite Forall_forall in Htyped. by apply Htyped.
Qed.

(** In that case the chart has, for each type, one group of bars: the scores
    of the records of that type, in the order of the input. *)
Lemma type_artists_bar (data : list building) (t : string) :
  Some t ∈ building_type <$> data ->
  exists x width colors,
    Bar x (fire_risk_score <$> filter (fun b => building_type b = Some t) data)
        width (Some t) colors
      ∈ type_artists data (unique (building_type <$> data)).
Proof.
  intros Ht. apply (proj2 (elem_of_unique _ _)) in Ht.
  apply list_elem_of_lookup_1 in Ht as [i Hi].
  pose proof (enumerate_lookup _ _ _ (palette_lookup _ _ _ Hi)) as Hentry.
  apply list_elem_of_lookup_2 in Hentry.
  eexists _, _, _. unfold type_artists. apply list_elem_of_bind.
  eexists. split; [|exact Hentry].
  unfold type_bar, type_rows. apply elem_of_cons. left.
  f_equal. f_equal. apply list_filter_iff. intros b. unfold cell_eqb.
  destruct (building_type b) as [s|]; [|done].
  rewrite bool_decide_spec. split; [by intros [= ->]|by intros ->].
Qed.

Lemma bind_ext_in {A B} (l : list A) (f g : A -> list B) :
  (forall x, x ∈ l -> f x = g x) -> l ≫= f = l ≫= g.
Proof.
  induction l as [|x l IH]; intros Hf; [done|]. csimpl.
  rewrite (Hf x) by apply list_elem_of_here.
  rewrite IH; [done|]. intros y Hy. apply Hf. by apply list_elem_of_further.
Qed.

Lemma rounds_Return_inv {A} (round : A -> outcome unit * list artist) (l : list A) :
  fst (rounds round l) = Return tt ->
  snd (rounds round l) = l ≫= (fun x => snd (round x)) /\
  Forall (fun x => fst (round x) = Return tt) l.
Proof.
  induction l as [|x l IH]; [done|]. csimpl.
  destruct (round x) as [[[]|e] arts] eqn:Hx; [|done]. cbn [fst snd].
  intros [Harts Hall]%IH. rewrite Harts. split; [done|].
  constructor; [by rewrite Hx|done].
Qed.

Lemma type_round_Return_inv (df : list building) (types : list (option string))
    (entry : nat * (option string * color)) :
  fst (type_round df types entry) = Return tt ->
  snd (type_round df types entry)
    = [type_bar df types entry; type_ticks df types entry].
Proof.
  unfold type_round.
  destruct (negb (has_column fire_risk_score df)); [done|].
  destruct (negb (bool_decide (is_Some (entry.2.1))) && negb nan_label_ok); [done|].
  by destruct (negb (has_column building_name df)).
Qed.

(** What a saved grouped chart is made of: the artists of all rounds, then
    the labels, the legend, the two threshold lines and the grid. *)
Lemma create_building_type_chart_Plt (data : list building) (output_file : string)
    (w w' : world) :
  create_building_type_chart data output_file w = (Return Plt, w') ->
  fs w' !! output_file
    = Some (CImage (grouped_figure (unique (building_type <$> data))
                      (type_artists data (unique (building_type <$> data))))).
Proof.
  rewrite create_building_type_chart_run.
  destruct data as [|first rest]; [done|].
  destruct (bool_decide (building_type first = None)); [done|]. cbv zeta.
  destruct (rounds _ _) as [[[]|e] arts] eqn:Hrounds; cbn [fst snd]; [|done].
  intros [= <-]. cbn [fs]. rewrite lookup_insert_eq. do 3 f_equal.
  pose proof (rounds_Return_inv (type_round (first :: rest)
                (unique (building_type <$> first :: rest))) _
                (f_equal fst Hrounds)) as [Harts Hall].
  rewrite Hrounds in Harts. cbn [snd] in Harts. rewrite Harts.
  unfold type_artists. apply bind_ext_in. intros entry Hentry.
  rewrite Forall_forall in Hall. by apply type_round_Return_inv, Hall.
Qed.

(** The bars of the [i]-th type are among the artists of the loop. *)
Lemma type_artists_type_bar (df : list building) (types : list (option string))
    (i : nat) (t : string) :
  types !! i = Some (Some t) ->
  Bar ((fun x => x + inject_Z (Z.of_nat i) * (0.8 / len types))%Q
         <$> range (length (filter (fun b => building_type b = Some t) df)))
      (fire_risk_score <$> filter (fun b => building_type b = Some t) df)
      (0.8 / len types)%Q (Some t) [Husl i (length types)]
    ∈ type_artists df types.
Proof.
  intros Hi.
  pose proof (enumerate_lookup _ _ _ (palette_lookup _ _ _ Hi)) as Hentry.
  apply list_elem_of_lookup_2 in Hentry.
  unfold type_artists. apply list_elem_of_bind.
  eexists. split; [|exact Hentry].
  unfold type_bar, type_rows. apply elem_of_cons. left.
  assert (Hrows : filter (fun b => building_type b = Some t) df
                  = filter (fun b => cell_eqb (building_type b) (Some t)) df).
  { apply list_filter_iff. intros b. unfold cell_eqb.
    destruct (building_type b) as [s|]; [|done].
    rewrite bool_decide_spec. split; [by intros [= ->]|by intros ->]. }
  by rewrite Hrows.
Qed.

(** A bar of a [plt.bar] call is a bar of the figure. *)
Lemma plotted_bars_Bar (fig : figure) (x : list Q) (height : list (option Q))
    (width : Q) (label : option string) (colors : list color) (k : nat)
    (xk : Q) (hk : option Q) :
  Bar x height width label colors ∈ artists fig ->
  x !! k = Some xk -> height !! k = Some hk ->
  (xk, hk) ∈ plotted_bars fig.
Proof.
  intros Hbar Hx Hh. unfold plotted_bars. apply list_elem_of_bind.
  eexists. split; [|exact Hbar]. simpl.
  apply (list_elem_of_lookup_2 _ k), lookup_zip_Some. by split.
Qed.

(** ** The claims about the charts *)

(** C2, amended: on records that all have a name and a score, the overall
    chart is sorted in descending order of score: its bars stand at positions
    0, 1, 2, ... and their heights, read from left to right, never go up.
    The grouped-by-type chart is not sorted by score.  Whenever it is drawn,
    as it is when the list is not empty and every record has a building
    type, the bars of each type stand in the order of the input records: the
    [k]-th record of the type, counted in input order, is drawn with its own
    score at [x = k + i * w], where [i] is the index of the type in order of
    first appearance and [w] is 0.8 divided by the number of types. *)
Theorem chart_order (data : list building) (output_file : string) (w : world) :
  Forall has_name_and_score data ->
  (exists (names : list string) (scores : list Q) (w' : world),
      create_risk_score_chart data output_file w = (Return Plt, w') /\
      fs w' !! output_file = Some (CImage (risk_score_figure names scores)) /\
      plotted_bars (risk_score_figure names scores)
        = zip (range (length data)) (Some <$> scores) /\
      Sorted (flip Qle) scores /\
      non_increasing_left_to_right (plotted_bars (risk_score_figure names scores))) /\
  (forall w' : world,
     create_building_type_chart data output_file w = (Return Plt, w') ->
     exists fig : figure,
       fs w' !! output_file = Some (CImage fig) /\
       forall (i : nat) (t : string),
         unique (building_type <$> data) !! i = Some (Some t) ->
         Bar ((fun x => x + inject_Z (Z.of_nat i)
                            * (0.8 / len (unique (building_type <$> data))))%Q
                <$> range (length (filter (fun b => building_type b = Some t) data)))
             (fire_risk_score <$> filter (fun b => building_type b = Some t) data)
             (0.8 / len (unique (building_type <$> data)))%Q (Some t)
             [Husl i (length (unique (building_type <$> data)))]
           ∈ artists fig /\
         forall (k : nat) (b : building),
           filter (fun b => building_type b = Some t) data !! k = Some b ->
           ((inject_Z (Z.of_nat k)
             + inject_Z (Z.of_nat i) * (0.8 / len (unique (building_type <$> data))))%Q,
            fire_risk_score b) ∈ plotted_bars fig) /\
  (data <> [] ->
   Forall (fun b => is_Some (building_type b)) data ->
   fst (create_building_type_chart data output_file w) = Return Plt).
Proof using np_argsort_spec.
  intros Hwf. split; [|split].
  - destruct (create_risk_score_chart_Return data output_file w Hwf)
      as (names & scores & Hrun & Hn & Hs & _ & Hsorted).
    eexists names, scores, _. split; [exact Hrun|].
    split; [apply lookup_insert_eq|].
    rewrite plotted_bars_risk_score_figure, Hn.
    split; [done|]. split; [done|]. by apply sorted_bars_non_increasing.
  - intros w' Hrun%create_building_type_chart_Plt.
    eexists. split; [exact Hrun|]. intros i t Hi.
    assert (Hbar := type_artists_type_bar data _ i t Hi).
    assert (Hin : forall a, a ∈ type_artists data (unique (building_type <$> data)) ->
                  a ∈ artists (grouped_figure (unique (building_type <$> data))
                                 (type_artists data (unique (building_type <$> data))))).
    { intros a Ha. unfold grouped_figure. cbn [artists]. apply elem_of_app. by left. }
    split; [by apply Hin|].
    intros k b Hk. eapply plotted_bars_Bar; [by apply Hin, Hbar|..].
    + rewrite list_lookup_fmap.
      assert (Hrange : range (length (filter (fun b => building_type b = Some t) data)) !! k
                       = Some (inject_Z (Z.of_nat k))).
      { apply lookup_range. split; [done|]. by eapply lookup_lt_Some. }
      by rewrite Hrange.
    + by rewrite list_lookup_fmap, Hk.
  - intros Hne Htyped.
    by rewrite (create_building_type_chart_Return data output_file w Hne Hwf Htyped).
Qed.

(** C3, amended: run on a non-empty JSON array of records that all have a
    name and a score, the program returns and has written
    [risk_scores_chart.png]; it has written [risk_scores_by_type_chart.png]
    too when every record has a building type. *)
Theorem main_creates_chart_files (w : world) (data : list building) :
  fs w !! "buildings.json" = Some (CJson data) ->
  data <> [] ->
  Forall has_name_and_score data ->
  exists (names : list string) (scores : list Q) (w' : world),
    main w = (Return tt, w') /\
    fs w' !! "risk_scores_chart.png" = Some (CImage (risk_score_figure names scores)) /\
    (Forall (fun b => is_Some (building_type b)) data ->
     fs w' !! "risk_scores_by_type_chart.png"
       = Some (CImage (grouped_figure (unique (building_type <$> data))
                         (type_artists data (unique (building_type <$> data)))))).
Proof using np_argsort_spec.
  intros Hfile Hne Hwf.
  destruct (create_risk_score_chart_Return data "risk_scores_chart.png" w Hwf)
    as (names & scores & Hrun & _).
  exists names, scores.
  rewrite main_run, with_sample_present by by rewrite Hfile.
  rewrite (load_buildings_data_json _ _ _ Hfile), Hrun.
  set (w2 := World _ _ _).
  assert (Hfs2 : fs w2 !! "risk_scores_chart.png"
                 = Some (CImage (risk_score_figure names scores))).
  { apply lookup_insert_eq. }
  pose proof (create_building_type_chart_fs data "risk_scores_by_type_chart.png" w2
                "risk_scores_chart.png") as Hframe.
  pose proof (create_building_type_chart_Return data "risk_scores_by_type_chart.png" w2
                Hne Hwf) as Hgrouped.
  destruct (create_building_type_chart data "risk_scores_by_type_chart.png" w2)
    as [[r|e] w3]; cbn [snd] in Hframe.
  - eexists. split; [reflexivity|]. cbn [fs].
    split; [by rewrite Hframe|].
    intros Htyped. specialize (Hgrouped Htyped). cbv zeta in Hgrouped.
    injection Hgrouped as _ ->. cbn [fs]. apply lookup_insert_eq.
  - eexists. split; [reflexivity|]. cbn [fs].
    split; [by rewrite Hframe|].
    intros Htyped. specialize (Hgrouped Htyped). discriminate.
Qed.

(** C6: the building type is optional.  When the first record has no
    [building_type] key, [create_building_type_chart] prints that it skips
    the grouped chart and returns [None], leaving the files and the figures
    as they are; [main] on such records (each with a name and a score) still
    returns and writes the overall chart of these very records: one bar and
    one tick label for each record, the (name, score) pairs of the input in
    descending order of score; and it does not write the grouped chart. *)
Theorem missing_building_type_skips_grouped_chart (w : world) (first : building)
    (rest : list building) :
  building_type first = None ->
  Forall has_name_and_score (first :: rest) ->
  fs w !! "buildings.json" = Some (CJson (first :: rest)) ->
  (forall output_file w1,
      create_building_type_chart (first :: rest) output_file w1 =
        (Return PyNone,
         World (fs w1) (figures w1)
               (stdout w1 ++ ["Building type information not available. Skipping grouped chart."]))) /\
  exists (names : list string) (scores : list Q) (w' : world),
    main w = (Return tt, w') /\
    fs w' !! "risk_scores_chart.png" = Some (CImage (risk_score_figure names scores)) /\
    plotted_bars (risk_score_figure names scores)
      = zip (range (length (first :: rest))) (Some <$> scores) /\
    XTicks (range (length (first :: rest))) (Some <$> names)
      ∈ artists (risk_score_figure names scores) /\
    zip (Some <$> names) (Some <$> scores)
      ≡ₚ (fun b => (building_name b, fire_risk_score b)) <$> (first :: rest) /\
    Sorted (flip Qle) scores /\
    fs w' !! "risk_scores_by_type_chart.png" = fs w !! "risk_scores_by_type_chart.png".
Proof using np_argsort_spec.
  intros Hnone Hwf Hfile.
  assert (Hskip : forall output_file w1,
    create_building_type_chart (first :: rest) output_file w1 =
      (Return PyNone,
       World (fs w1) (figures w1)
             (stdout w1 ++ ["Building type information not available. Skipping grouped chart."]))).
  { intros output_file w1. rewrite create_building_type_chart_run.
    by rewrite bool_decide_eq_true_2. }
  split; [exact Hskip|].
  destruct (create_risk_score_chart_Return (first :: rest) "risk_scores_chart.png" w Hwf)
    as (names & scores & Hrun & Hn & Hs & Hperm & Hsorted).
  exists names, scores.
  rewrite main_run, with_sample_present by by rewrite Hfile.
  rewrite (load_buildings_data_json _ _ _ Hfile), Hrun, Hskip.
  eexists. split; [reflexivity|]. cbn [fs].
  split; [apply lookup_insert_eq|].
  split; [by rewrite plotted_bars_risk_score_figure, Hn|].
  split.
  { rewrite <- Hn. unfold risk_score_figure. cbn [artists].
    apply list_elem_of_further, list_elem_of_here. }
  split; [exact Hperm|]. split; [exact Hsorted|].
  by rewrite lookup_insert_ne.
Qed.

(** C10: [create_building_type_chart] decides from the first record alone
    whether to skip.  On an empty list it raises [IndexError]; on a non-empty
    one it returns [None] exactly when the first record has no
    [building_type] key, whatever the later records are, and then the later
    records have no influence at all. *)
Theorem skip_decided_by_first_record :
  (forall output_file w,
      create_building_type_chart [] output_file w = (Raise IndexError, w)) /\
  (forall first rest output_file w,
      fst (create_building_type_chart (first :: rest) output_file w) = Return PyNone
      <-> building_type first = None) /\
  (forall first rest rest' output_file w,
      building_type first = None ->
      create_building_type_chart (first :: rest) output_file w
        = create_building_type_chart (first :: rest') output_file w).
Proof.
  split; [|split].
  - intros output_file w. by rewrite create_building_type_chart_run.
  - intros first rest output_file w. rewrite create_building_type_chart_run.
    destruct (bool_decide (building_type first = None)) eqn:Hfirst.
    + apply bool_decide_eq_true in Hfirst. done.
    + apply bool_decide_eq_false in Hfirst. cbv zeta.
      destruct (rounds _ _) as [[[]|e] arts]; cbn [fst]; split; done.
  - intros first rest rest' output_file w Hnone.
    rewrite !create_building_type_chart_run.
    by rewrite !bool_decide_eq_true_2.
Qed.


(** * Further properties of the script *)

(** ** More on the colour classifier *)

Lemma get_color_mapping_green (score : Q) :
  get_color_mapping score = "#10B981" <-> (score < 33)%Q.
Proof.
  split; [|apply get_color_mapping_low].
  destruct (score_cases score) as [H|[[H1 H2]|H]]; [done|..].
  - by rewrite get_color_mapping_medium.
  - by rewrite get_color_mapping_high.
Qed.

Lemma get_color_mapping_red (score : Q) :
  get_color_mapping score = "#EF4444" <-> (66 <= score)%Q.
Proof.
  split; [|apply get_color_mapping_high].
  destruct (score_cases score) as [H|[[H1 H2]|H]]; [..|done].
  - by rewrite get_color_mapping_low.
  - by rewrite get_color_mapping_medium.
Qed.

Lemma color_rank_le (s1 s2 : Q) :
  (s1 <= s2)%Q ->
  color_rank (get_color_mapping s1) <= color_rank (get_color_mapping s2).
Proof.
  intros Hle.
  destruct (score_cases s1) as [H1|[[H1 H1']|H1]].
  - rewrite (get_color_mapping_low s1) by done. unfold color_rank at 1. simpl. lia.
  - rewrite (get_color_mapping_medium s1) by done.
    destruct (score_cases s2) as [H2|[[H2 H2']|H2]].
    + exfalso. apply (Qlt_not_le _ _ H2). by eapply Qle_trans.
    + by rewrite (get_color_mapping_medium s2).
    + rewrite (get_color_mapping_high s2) by done. unfold color_rank. simpl. lia.
  - rewrite (get_color_mapping_high s1), (get_color_mapping_high s2); [done|..|done].
    by eapply Qle_trans.
Qed.

(** X1: the classifier is monotone: a score at least as high never gets a
    less alarming colour (green, then amber, then red); and the colour tells
    the band: green only below 33, red only from 66 on. *)
Theorem get_color_mapping_monotone (s1 s2 : Q) :
  ((s1 <= s2)%Q ->
   color_rank (get_color_mapping s1) <= color_rank (get_color_mapping s2)) /\
  (get_color_mapping s1 = "#10B981" <-> (s1 < 33)%Q) /\
  (get_color_mapping s1 = "#EF4444" <-> (66 <= s1)%Q).
Proof.
  split; [apply color_rank_le|].
  split; [apply get_color_mapping_green|apply get_color_mapping_red].
Qed.

(** ** Missing keys in [create_risk_score_chart] *)

Lemma mapM_getitem_missing {A} (field : building -> option A) (key : string)
    (data : list building) :
  Exists (fun b => field b = None) data ->
  mapM (getitem field key) data = Raise (KeyError key).
Proof.
  intros Hmissing.
  destruct (mapM (getitem field key) data) as [l|e] eqn:Hrun.
  - apply mapM_getitem_Return in Hrun. exfalso.
    apply Exists_exists in Hmissing as (b & Hb & Hnone).
    apply list_elem_of_lookup_1 in Hb as [i Hi].
    apply (f_equal (fun l => l !! i)) in Hrun.
    rewrite !list_lookup_fmap, Hi in Hrun. simpl in Hrun. rewrite Hnone in Hrun.
    by destruct (l !! i).
  - by rewrite (mapM_getitem_Raise _ _ _ _ Hrun).
Qed.

Lemma Forall_is_Some_or_missing {A} (field : building -> option A)
    (data : list building) :
  Forall (fun b => is_Some (field b)) data \/ Exists (fun b => field b = None) data.
Proof.
  induction data as [|b data [IH|IH]].
  - left. constructor.
  - destruct (field b) as [v|] eqn:Hb.
    + left. constructor; [by rewrite Hb|done].
    + right. by constructor.
  - right. by apply Exists_cons_tl.
Qed.

(** X2: a missing key makes [create_risk_score_chart] raise [KeyError]
    before it draws, saves or prints anything.  All names are read before any
    score: when some record lacks [building_name] the error names that key,
    also when a record before it lacks [fire_risk_score]; the error names
    [fire_risk_score] only when every record has a name. *)
Theorem create_risk_score_chart_missing_key (data : list building)
    (output_file : string) (w : world) :
  (Exists (fun b => building_name b = None) data ->
   create_risk_score_chart data output_file w = (Raise (KeyError "building_name"), w)) /\
  (Forall (fun b => is_Some (building_name b)) data ->
   Exists (fun b => fire_risk_score b = None) data ->
   create_risk_score_chart data output_file w = (Raise (KeyError "fire_risk_score"), w)).
Proof.
  split.
  - intros Hmissing. rewrite create_risk_score_chart_run.
    unfold sorted_names_and_scores.
    by rewrite (mapM_getitem_missing _ _ _ Hmissing).
  - intros Hnames Hmissing. rewrite create_risk_score_chart_run.
    unfold sorted_names_and_scores.
    destruct (mapM_getitem_is_Some building_name "building_name" data Hnames)
      as (names & -> & _).
    rewrite outcome_bind_Return.
    by rewrite (mapM_getitem_missing _ _ _ Hmissing).
Qed.

(** ** Colours and annotations of the overall chart *)

Lemma cycle_colors_id (colors : list color) :
  cycle_colors (length colors) colors = colors.
Proof.
  unfold cycle_colors.
  transitivity (omap (colors !!.) (seq 0 (length colors))); [|apply omap_lookup_seq].
  apply list_omap_ext, Forall2_same_length_lookup. split; [done|].
  intros i j j' Hj Hj'. simplify_eq.
  apply lookup_seq in Hj as [-> Hlt]. simpl.
  by rewrite Nat.mod_small.
Qed.

Lemma zip_height_color (scores : list Q) :
  zip (Some <$> scores) (Hex <$> (get_color_mapping <$> scores))
    = (fun s => (Some s, Hex (get_color_mapping s))) <$> scores.
Proof. induction scores as [|s scores IH]; csimpl; [done|]. by rewrite IH. Qed.

Lemma colored_bars_risk_score_figure (names : list string) (scores : list Q) :
  length names = length scores ->
  colored_bars (risk_score_figure names scores) =
    zip (range (length names))
        ((fun s => (Some s, Hex (get_color_mapping s))) <$> scores).
Proof.
  intros Hlen. unfold colored_bars, risk_score_figure. cbn [artists].
  rewrite !bind_app.
  assert (Hann : forall entries, (annotation <$> entries) ≫= colored_bars_of = []).
  { intros entries. induction entries as [|[i [name score]] entries IH]; [done|].
    by csimpl. }
  rewrite Hann. csimpl. rewrite !app_nil_r.
  rewrite length_range, Hlen.
  rewrite <- (length_fmap get_color_mapping scores), <- (length_fmap Hex).
  by rewrite cycle_colors_id, zip_height_color.
Qed.

Lemma lookup_zip_range {A} (n : nat) (l : list A) (x : Q) (y : A) :
  (x, y) ∈ zip (range n) l ->
  exists i, x = inject_Z (Z.of_nat i) /\ i < n /\ l !! i = Some y.
Proof.
  intros [i Hi]%list_elem_of_lookup_1.
  apply lookup_zip_Some in Hi as [Hx Hy].
  apply lookup_range in Hx as [-> ?]. by exists i.
Qed.

(** X3: in the overall chart every bar has the colour [get_color_mapping]
    gives to its own height, also after the sort, and, the bars being in
    descending order, the colours never get more alarming from left to right:
    red bars first, then amber, then green. *)
Theorem overall_chart_colors (data : list building) (output_file : string)
    (w : world) :
  Forall has_name_and_score data ->
  exists (fig : figure) (w' : world),
    create_risk_score_chart data output_file w = (Return Plt, w') /\
    fs w' !! output_file = Some (CImage fig) /\
    length (colored_bars fig) = length data /\
    (forall x h c, (x, (h, c)) ∈ colored_bars fig ->
       exists s, h = Some s /\ c = Hex (get_color_mapping s)) /\
    (forall x1 h1 c1 x2 h2 c2,
       (x1, (h1, Hex c1)) ∈ colored_bars fig ->
       (x2, (h2, Hex c2)) ∈ colored_bars fig ->
       (x1 < x2)%Q ->
       color_rank c2 <= color_rank c1).
Proof using np_argsort_spec.
  intros Hwf.
  destruct (create_risk_score_chart_Return data output_file w Hwf)
    as (names & scores & Hrun & Hn & Hs & _ & Hsorted).
  eexists _, _. split; [exact Hrun|]. split; [apply lookup_insert_eq|].
  rewrite colored_bars_risk_score_figure by lia.
  split; [|split].
  - rewrite length_zip_with, length_range, length_fmap. lia.
  - intros x h c (i & _ & _ & Hi)%lookup_zip_range.
    apply list_lookup_fmap_Some in Hi as (s & Heq & _).
    exists s. by injection Heq as -> ->.
  - intros x1 h1 c1 x2 h2 c2 (i & -> & _ & Hi)%lookup_zip_range
      (j & -> & _ & Hj)%lookup_zip_range Hlt.
    apply inject_nat_lt in Hlt.
    apply list_lookup_fmap_Some in Hi as (s1 & Heq1 & Hs1).
    apply list_lookup_fmap_Some in Hj as (s2 & Heq2 & Hs2).
    injection Heq1 as -> ->. injection Heq2 as -> ->.
    apply color_rank_le.
    apply Sorted_StronglySorted in Hsorted; [|apply _].
    by eapply StronglySorted_lookup_ge.
Qed.

Lemma annotations_risk_score_figure (names : list string) (scores : list Q) :
  annotations (risk_score_figure names scores) =
    (fun '(i, (name, score)) => (score, (inject_Z (Z.of_nat i), score)))
      <$> enumerate (zip (take 3 names) (take 3 scores)).
Proof.
  unfold annotations, risk_score_figure. cbn [artists].
  rewrite !omap_app. csimpl. rewrite app_nil_r.
  generalize (enumerate (zip (take 3 names) (take 3 scores))).
  intros entries. induction entries as [|[i [name score]] entries IH]; [done|].
  csimpl. by rewrite IH.
Qed.

Lemma enumerate_lookup_Some {A} (l : list A) (k i : nat) (x : A) :
  enumerate l !! k = Some (i, x) -> i = k /\ l !! k = Some x.
Proof.
  unfold enumerate. intros [Hi Hx]%lookup_zip_Some.
  apply lookup_seq in Hi as [-> _]. done.
Qed.

(** X4: the overall chart annotates the three highest bars, or all of them
    when there are fewer: the [k]-th annotation sits on the [k]-th bar from
    the left and shows that bar's score, and no bar to its right is higher. *)
Theorem overall_chart_annotations (data : list building) (output_file : string)
    (w : world) :
  Forall has_name_and_score data ->
  exists (fig : figure) (w' : world),
    create_risk_score_chart data output_file w = (Return Plt, w') /\
    fs w' !! output_file = Some (CImage fig) /\
    length (annotations fig) = length data `min` 3 /\
    (forall k text xy,
       annotations fig !! k = Some (text, xy) ->
       xy = (inject_Z (Z.of_nat k), text) /\
       (inject_Z (Z.of_nat k), Some text) ∈ plotted_bars fig /\
       (forall x h, (x, Some h) ∈ plotted_bars fig ->
                    (inject_Z (Z.of_nat k) < x)%Q -> (h <= text)%Q)).
Proof using np_argsort_spec.
  intros Hwf.
  destruct (create_risk_score_chart_Return data output_file w Hwf)
    as (names & scores & Hrun & Hn & Hs & _ & Hsorted).
  eexists _, _. split; [exact Hrun|]. split; [apply lookup_insert_eq|].
  rewrite annotations_risk_score_figure, plotted_bars_risk_score_figure.
  split.
  - unfold enumerate.
    rewrite length_fmap, !length_zip_with, length_seq, !length_take. lia.
  - intros k text xy Hk.
    apply list_lookup_fmap_Some in Hk as ([i [name score]] & Heq & Hentry).
    injection Heq as -> ->.
    apply enumerate_lookup_Some in Hentry as [-> Hzip].
    apply lookup_zip_Some in Hzip as [Hname Hscore].
    apply lookup_take_Some in Hname as [Hname _].
    apply lookup_take_Some in Hscore as [Hscore _].
    assert (Hbar : (inject_Z (Z.of_nat k), Some score)
                     ∈ zip (range (length names)) (Some <$> scores)).
    { apply (list_elem_of_lookup_2 _ k), lookup_zip_Some. split.
      - apply lookup_range. split; [done|]. by eapply lookup_lt_Some.
      - by rewrite list_lookup_fmap, Hscore. }
    split; [done|]. split; [done|].
    intros x h Hx Hlt.
    by apply (sorted_bars_non_increasing (length names) scores Hsorted
                (inject_Z (Z.of_nat k)) score x h).
Qed.

(** ** What the chart functions leave behind *)

Lemma sorted_names_and_scores_Return_inv (data : list building)
    (r : list string * list Q) :
  sorted_names_and_scores data = Return r -> Forall has_name_and_score data.
Proof.
  intros Hrun.
  destruct (Forall_is_Some_or_missing building_name data) as [Hn|Hn].
  - destruct (Forall_is_Some_or_missing fire_risk_score data) as [Hs|Hs].
    + apply Forall_forall. intros b Hb. rewrite Forall_forall in Hn, Hs.
      split; [by apply Hn|by apply Hs].
    + unfold sorted_names_and_scores in Hrun.
      destruct (mapM_getitem_is_Some building_name "building_name" data Hn)
        as (names & Hnames & _).
      rewrite Hnames, outcome_bind_Return in Hrun.
      by rewrite (mapM_getitem_missing _ _ _ Hs) in Hrun.
  - unfold sorted_names_and_scores in Hrun.
    by rewrite (mapM_getitem_missing _ _ _ Hn) in Hrun.
Qed.

(** X5: what [create_building_type_chart] leaves behind, by the way it
    ends.  It writes its file only when it returns [plt], and then it has
    opened exactly one figure, the one it saved, and printed one line.  When
    it skips it only prints.  When it raises, the files and the output are as
    they were. *)
Theorem create_building_type_chart_effects (data : list building)
    (output_file : string) (w w' : world) (r : outcome pyobj) :
  create_building_type_chart data output_file w = (r, w') ->
  match r with
  | Return Plt =>
      exists fig, fs w' = <[output_file := CImage fig]> (fs w) /\
                  figures w' = fig :: figures w /\
                  stdout w' = (stdout w ++ ["Grouped chart saved as " +:+ output_file])%list
  | Return PyNone =>
      fs w' = fs w /\ figures w' = figures w /\
      stdout w' = (stdout w ++ ["Building type information not available. Skipping grouped chart."])%list
  | Raise e =>
      fs w' = fs w /\ stdout w' = stdout w
  end.
Proof.
  rewrite create_building_type_chart_run.
  destruct data as [|first rest].
  { by intros [= <- <-]. }
  destruct (bool_decide (building_type first = None)).
  { by intros [= <- <-]. }
  cbv zeta.
  destruct (rounds _ _) as [[[]|e] arts] eqn:Hrounds; cbn [fst snd].
  - intros [= <- <-]. by eexists.
  - by intros [= <- <-].
Qed.

(** X6: when [create_risk_score_chart] returns, every record had a
    [building_name] and a [fire_risk_score], what it returns is [plt], and
    its whole effect is one new figure, that figure saved under
    [output_file], and one printed line. *)
Theorem create_risk_score_chart_returns (data : list building)
    (output_file : string) (w w' : world) (r : pyobj) :
  create_risk_score_chart data output_file w = (Return r, w') ->
  r = Plt /\
  Forall has_name_and_score data /\
  exists fig, fs w' = <[output_file := CImage fig]> (fs w) /\
              figures w' = fig :: figures w /\
              stdout w' = (stdout w ++ ["Chart saved as " +:+ output_file])%list.
Proof.
  rewrite create_risk_score_chart_run.
  destruct (sorted_names_and_scores data) as [[names scores]|e] eqn:Hrun; [|done].
  intros [= <- <-]. split; [done|].
  split; [by eapply sorted_names_and_scores_Return_inv|]. by eexists.
Qed.

(** ** How [main] ends *)

Lemma sample_data_has_fields :
  Forall has_name_and_score sample_data /\
  Forall (fun b => is_Some (building_type b)) sample_data.
Proof.
  split; repeat first [ apply List.Forall_nil | apply List.Forall_cons | split ];
    by eexists.
Qed.

Lemma with_sample_absent (w : world) :
  fs w !! "buildings.json" = None ->
  with_sample w =
    World (<["buildings.json" := CJson sample_data]> (fs w)) (figures w)
          (stdout w ++ ["Sample data file not found. Creating buildings.json"]).
Proof.
  intros Hnone. unfold with_sample.
  rewrite bool_decide_eq_false_2; [done|]. rewrite Hnone. by intros [? ?].
Qed.

Lemma with_sample_load (w : world) :
  load_buildings_data "buildings.json" (with_sample w) =
    match fs w !! "buildings.json" with
    | None => (Return sample_data, with_sample w)
    | Some _ => load_buildings_data "buildings.json" w
    end.
Proof.
  destruct (fs w !! "buildings.json") as [c|] eqn:Hfile.
  - by rewrite with_sample_present by by rewrite Hfile.
  - rewrite with_sample_absent by done.
    unfold load_buildings_data. cbn [fs]. by rewrite lookup_insert_eq.
Qed.

(** X8: bad input ends the whole run before anything is produced.  When
    [buildings.json] is not JSON, [main] raises the decoding error; when it
    holds an array in which some record lacks [building_name], or, every
    name being there, lacks [fire_risk_score], [main] raises the [KeyError]
    of that key.  In each case no chart is made, not even of the records
    that are complete: no file is written, no figure opened, nothing
    printed. *)
Theorem main_aborts_on_bad_input (w : world) :
  (forall msg,
      fs w !! "buildings.json" = Some (CUnparsable msg) ->
      main w = (Raise (ValueError msg), w)) /\
  (forall data,
      fs w !! "buildings.json" = Some (CJson data) ->
      Exists (fun b => building_name b = None) data ->
      main w = (Raise (KeyError "building_name"), w)) /\
  (forall data,
      fs w !! "buildings.json" = Some (CJson data) ->
      Forall (fun b => is_Some (building_name b)) data ->
      Exists (fun b => fire_risk_score b = None) data ->
      main w = (Raise (KeyError "fire_risk_score"), w)).
Proof.
  split; [|split].
  - intros msg Hfile.
    rewrite main_run, with_sample_present by by rewrite Hfile.
    unfold load_buildings_data. by rewrite Hfile.
  - intros data Hfile Hmissing.
    rewrite main_run, with_sample_present by by rewrite Hfile.
    rewrite (load_buildings_data_json _ _ _ Hfile), create_risk_score_chart_run.
    unfold sorted_names_and_scores.
    by rewrite (mapM_getitem_missing _ _ _ Hmissing).
  - intros data Hfile Hnames Hmissing.
    rewrite main_run, with_sample_present by by rewrite Hfile.
    rewrite (load_buildings_data_json _ _ _ Hfile), create_risk_score_chart_run.
    unfold sorted_names_and_scores.
    destruct (mapM_getitem_is_Some building_name "building_name" data Hnames)
      as (names & -> & _).
    rewrite outcome_bind_Return.
    by rewrite (mapM_getitem_missing _ _ _ Hmissing).
Qed.

Lemma create_building_type_chart_grows (data : list building) (output_file : string)
    (w : world) :
  exists (lines : list string) (new : list figure),
    stdout (snd (create_building_type_chart data output_file w)) = (stdout w ++ lines)%list /\
    figures (snd (create_building_type_chart data output_file w)) = (new ++ figures w)%list /\
    length new <= 1.
Proof.
  rewrite create_building_type_chart_run.
  destruct data as [|first rest].
  { exists [], []. cbn [snd]. rewrite app_nil_r.
    split; [done|]. split; [done|]. simpl. lia. }
  destruct (bool_decide (building_type first = None)).
  { eexists _, []. split; [reflexivity|]. split; [done|]. simpl. lia. }
  cbv zeta. destruct (rounds _ _) as [[[]|e] arts]; cbn [fst snd stdout figures].
  - eexists _, [_]. split; [reflexivity|]. split; [done|]. simpl. lia.
  - exists [], [Figure (Qmax 14 (len (unique (building_type <$> first :: rest)) * 4), 10)%Q
                  arts].
    rewrite app_nil_r. split; [done|]. split; [done|]. simpl. lia.
Qed.

(** X9: when [main] returns, it has only added to the output and to the open
    figures: the lines printed before are still there, the four closing lines
    are the last ones (they name both PNG files, whether or not the grouped
    chart was written), the line of the overall chart is among those printed,
    and the figures open before are untouched under one or two new ones,
    which are never closed. *)
Theorem main_output (w : world) :
  fst (main w) = Return tt ->
  exists (lines : list string) (new : list figure),
    stdout (snd (main w)) = (stdout w ++ lines ++ closing_lines)%list /\
    "Chart saved as risk_scores_chart.png" ∈ lines /\
    figures (snd (main w)) = (new ++ figures w)%list /\
    1 <= length new <= 2.
Proof.
  rewrite main_run.
  assert (Hpre : exists pre, stdout (with_sample w) = (stdout w ++ pre)%list /\
                             figures (with_sample w) = figures w).
  { unfold with_sample. destruct (bool_decide _).
    - exists []. by rewrite app_nil_r.
    - by eexists. }
  destruct Hpre as (pre & Hout0 & Hfig0).
  pose proof (load_buildings_data_world "buildings.json" (with_sample w)) as Hload.
  destruct (load_buildings_data "buildings.json" (with_sample w)) as [[data|e] w1];
    cbn [snd] in Hload; subst w1; [|done].
  rewrite create_risk_score_chart_run.
  destruct (sorted_names_and_scores data) as [[names scores]|e]; [|done].
  set (w2 := World _ _ _).
  destruct (create_building_type_chart_grows data "risk_scores_by_type_chart.png" w2)
    as (lines & new & Hout & Hfig & Hnew).
  destruct (create_building_type_chart data "risk_scores_by_type_chart.png" w2)
    as [[r|e] w3]; cbn [snd] in Hout, Hfig; intros _; cbn [snd stdout figures].
  - exists (pre ++ "Chart saved as risk_scores_chart.png" :: lines)%list,
           (new ++ [risk_score_figure names scores])%list.
    rewrite Hout, Hfig. subst w2. cbn [stdout figures]. rewrite Hout0, Hfig0.
    split; [by rewrite <- !app_assoc|].
    split; [apply elem_of_app; right; apply list_elem_of_here|].
    split; [by rewrite <- app_assoc|]. rewrite length_app. simpl. lia.
  - exists (pre ++ "Chart saved as risk_scores_chart.png" ::
              lines ++ ["Couldn't create grouped chart: " +:+ exn_message e])%list,
           (new ++ [risk_score_figure names scores])%list.
    rewrite Hout, Hfig. subst w2. cbn [stdout figures]. rewrite Hout0, Hfig0.
    split; [by rewrite <- !app_assoc; simpl; rewrite <- !app_assoc|].
    split; [apply elem_of_app; right; apply list_elem_of_here|].
    split; [by rewrite <- app_assoc|]. rewrite length_app. simpl. lia.
Qed.

(** X10: on an empty JSON array [main] still returns.  It writes the overall
    chart, without any bar; the grouped chart fails on the first record it
    looks for, which [main] reports, and its file is not written. *)
Theorem main_empty_array (w : world) :
  fs w !! "buildings.json" = Some (CJson []) ->
  exists fig,
    main w =
      (Return tt,
       World (<["risk_scores_chart.png" := CImage fig]> (fs w))
             (fig :: figures w)
             (stdout w ++ [ "Chart saved as risk_scores_chart.png";
                            "Couldn't create grouped chart: list index out of range" ]
                       ++ closing_lines)) /\
    plotted_bars fig = [] /\
    annotations fig = [].
Proof using np_argsort_spec.
  intros Hfile. exists (risk_score_figure [] []).
  rewrite main_run, with_sample_present by by rewrite Hfile.
  rewrite (load_buildings_data_json _ _ _ Hfile), create_risk_score_chart_run.
  assert (Hsort : sorted_names_and_scores [] = Return ([], [])).
  { unfold sorted_names_and_scores. csimpl.
    destruct (np_argsort_spec []) as [Hperm _]. simpl in Hperm.
    apply Permutation_nil_r in Hperm. by rewrite Hperm. }
  rewrite Hsort, create_building_type_chart_run. cbn [fs figures stdout].
  split; [|done]. simpl. by rewrite <- app_assoc.
Qed.

(** X11: the first run.  In a directory without [buildings.json], [main]
    says so, creates the file from its sample data, charts them and returns:
    both PNG files are written, and the grouped chart has one group of bars
    for each of the four sample building types. *)
Theorem main_first_run (w : world) :
  fs w !! "buildings.json" = None ->
  exists (names : list string) (scores : list Q) (w' : world),
    main w = (Return tt, w') /\
    fs w' !! "buildings.json" = Some (CJson sample_data) /\
    fs w' !! "risk_scores_chart.png" = Some (CImage (risk_score_figure names scores)) /\
    fs w' !! "risk_scores_by_type_chart.png"
      = Some (CImage (grouped_figure (unique (building_type <$> sample_data))
                        (type_artists sample_data (unique (building_type <$> sample_data))))) /\
    unique (building_type <$> sample_data)
      = [Some "Residential"; Some "Academic"; Some "Administrative"; Some "Research"] /\
    stdout w' =
      (stdout w ++ [ "Sample data file not found. Creating buildings.json";
                     "Chart saved as risk_scores_chart.png";
                     "Grouped chart saved as risk_scores_by_type_chart.png" ]
                ++ closing_lines)%list.
Proof using np_argsort_spec.
  intros Hnone.
  destruct sample_data_has_fields as [Hwf Htyped].
  destruct (create_risk_score_chart_Return sample_data "risk_scores_chart.png"
              (with_sample w) Hwf) as (names & scores & Hrun & _).
  exists names, scores.
  rewrite main_run, with_sample_load, Hnone, Hrun.
  rewrite (create_building_type_chart_Return sample_data) by done.
  eexists. split; [reflexivity|]. cbn [fs stdout].
  rewrite with_sample_absent by done. cbn [fs stdout].
  split.
  { rewrite lookup_insert_ne by done. rewrite lookup_insert_ne by done.
    apply lookup_insert_eq. }
  split.
  { rewrite lookup_insert_ne by done. apply lookup_insert_eq. }
  split; [apply lookup_insert_eq|].
  split; [by vm_compute|].
  unfold closing_lines. simpl. by rewrite <- !app_assoc.
Qed.

(** ** What the grouped chart shows *)

Lemma NoDup_unique {A} `{EqDecision A} (l : list A) : NoDup (unique l).
Proof.
  induction l as [|x l IH]; [constructor|]. simpl. constructor.
  - rewrite list_elem_of_filter. by intros [? _].
  - by apply NoDup_filter.
Qed.

Lemma bind_nil_all {A B} (l : list A) (f : A -> list B) :
  (forall x, x ∈ l -> f x = []) -> l ≫= f = [].
Proof.
  induction l as [|x l IH]; intros Hf; [done|]. csimpl.
  rewrite (Hf x) by apply list_elem_of_here.
  rewrite IH; [done|]. intros y Hy. apply Hf. by apply list_elem_of_further.
Qed.

(** Adding one element to the group of one key of a duplicate-free key list
    adds it once to the concatenation of the groups. *)
Lemma bind_add_one {A B} `{EqDecision A} (keys : list A) (k : A) (b : B)
    (f : A -> list B) :
  NoDup keys -> k ∈ keys ->
  keys ≫= (fun t => if decide (t = k) then b :: f t else f t) ≡ₚ b :: (keys ≫= f).
Proof.
  induction 1 as [|t keys Ht Hnodup IH]; intros Hk; [by apply elem_of_nil in Hk|].
  csimpl. destruct (decide (t = k)) as [->|Hne].
  - simpl. apply Permutation_skip. apply Permutation_app_head.
    rewrite (bind_ext_in keys _ f); [done|].
    intros t' Ht'. destruct (decide (t' = k)) as [->|]; [done|done].
  - apply elem_of_cons in Hk as [->|Hk]; [done|].
    rewrite (IH Hk). by rewrite Permutation_middle.
Qed.

(** The groups of the distinct types partition the records that have a type. *)
Lemma type_rows_partition (df : list building) (types : list (option string)) :
  NoDup types ->
  (forall b, b ∈ df -> is_Some (building_type b) -> building_type b ∈ types) ->
  types ≫= type_rows df ≡ₚ filter (fun b => is_Some (building_type b)) df.
Proof.
  intros Hnodup. unfold type_rows.
  induction df as [|b df IH]; intros Hin.
  - rewrite bind_nil_all; [done|]. intros t _. done.
  - assert (IH' : types ≫= (fun t => filter (fun b => cell_eqb (building_type b) t) df)
                   ≡ₚ filter (fun b => is_Some (building_type b)) df).
    { apply IH. intros b' Hb'. apply Hin. by apply list_elem_of_further. }
    rewrite filter_cons.
    destruct (decide (is_Some (building_type b))) as [[s Hb]|Hb].
    + rewrite <- IH'.
      assert (Hs : Some s ∈ types).
      { rewrite <- Hb. apply Hin; [apply list_elem_of_here|by rewrite Hb]. }
      rewrite <- (bind_add_one types (Some s) b _ Hnodup Hs).
      erewrite (bind_ext_in types); [reflexivity|].
      intros t _. rewrite filter_cons. unfold cell_eqb at 1. rewrite Hb.
      destruct t as [s'|].
      * destruct (decide (Some s' = Some s)) as [[= ->]|Hne].
        -- by rewrite decide_True by by apply bool_decide_pack.
        -- rewrite decide_False; [done|]. intros Heq%bool_decide_unpack. congruence.
      * rewrite decide_False by (intros []).
        by rewrite decide_False by done.
    + rewrite <- IH'. erewrite (bind_ext_in types); [reflexivity|].
      intros t _. rewrite filter_cons. unfold cell_eqb at 1.
      destruct (building_type b) as [s|]; [destruct Hb; by eexists|].
      by rewrite decide_False by (intros []).
Qed.

Lemma zip_bind_snd {A B C} (l : list A) (k : list B) (h : B -> list C) :
  length l = length k -> zip l k ≫= (fun p => h (p.2)) = k ≫= h.
Proof.
  revert k. induction l as [|x l IH]; intros [|y k] Hlen; simplify_eq/=; [done|].
  csimpl. by rewrite IH.
Qed.

Lemma zip_bind_fst {A B C} (l : list A) (k : list B) (h : A -> list C) :
  length l = length k -> zip l k ≫= (fun p => h (p.1)) = l ≫= h.
Proof.
  revert k. induction l as [|x l IH]; intros [|y k] Hlen; simplify_eq/=; [done|].
  csimpl. by rewrite IH.
Qed.

Lemma enumerate_palette_bind {B} (types : list (option string))
    (g : option string -> list B) :
  enumerate (zip types (color_palette_husl (length types)))
    ≫= (fun entry => g (entry.2.1)) = types ≫= g.
Proof.
  unfold enumerate.
  rewrite (zip_bind_snd _ _ (fun p => g (p.1))) by by rewrite length_seq.
  apply zip_bind_fst. unfold color_palette_husl.
  by rewrite length_fmap, length_seq.
Qed.

Lemma type_artists_heights (df : list building) (types : list (option string)) :
  type_artists df types ≫= heights_of
    = fire_risk_score <$> (types ≫= type_rows df).
Proof.
  unfold type_artists.
  rewrite <- (enumerate_palette_bind types (type_rows df)).
  generalize (enumerate (zip types (color_palette_husl (length types)))).
  intros entries. induction entries as [|[i [t c]] entries IH]; [done|].
  csimpl. by rewrite fmap_app, <- IH.
Qed.

Lemma type_artists_bar_groups (df : list building) (types : list (option string)) :
  length (filter (fun a => is_bar a) (type_artists df types)) = length types.
Proof.
  assert (Hgen : forall entries : list (nat * (option string * color)),
    length (filter (fun a => is_bar a)
              (entries ≫= fun entry =>
                 [type_bar df types entry; type_ticks df types entry]))
      = length entries).
  { intros entries. induction entries as [|[i [t c]] entries IH]; [reflexivity|].
    csimpl. rewrite filter_cons_False by (intros []).
    simpl. by rewrite IH. }
  unfold type_artists. rewrite Hgen. unfold enumerate, color_palette_husl.
  rewrite !length_zip_with, !length_seq, length_fmap, length_seq. lia.
Qed.

(** X12: whenever [create_building_type_chart] saves its chart, the chart
    has one group of bars for each distinct building type, and the bars of
    all groups together are exactly the scores of the records that have a
    building type, each record drawn once.  A record without a
    [building_type] is in no group: it is left out of the grouped chart. *)
Theorem grouped_chart_partition (data : list building) (output_file : string)
    (w w' : world) :
  create_building_type_chart data output_file w = (Return Plt, w') ->
  exists fig,
    fs w' !! output_file = Some (CImage fig) /\
    length (bar_groups fig) = length (unique (building_type <$> data)) /\
    bar_heights fig
      ≡ₚ fire_risk_score <$> filter (fun b => is_Some (building_type b)) data.
Proof.
  intros Hrun%create_building_type_chart_Plt.
  eexists. split; [exact Hrun|]. split.
  - unfold bar_groups, grouped_figure. cbn [artists].
    rewrite filter_app, length_app, type_artists_bar_groups. simpl. lia.
  - unfold bar_heights, grouped_figure. cbn [artists].
    rewrite bind_app. csimpl. rewrite app_nil_r.
    rewrite type_artists_heights. apply fmap_Permutation.
    apply type_rows_partition; [apply NoDup_unique|].
    intros b Hb _. apply elem_of_unique, list_elem_of_fmap. by exists b.
Qed.

Lemma type_artists_xticks (df : list building) (types : list (option string)) :
  omap xticks_of (type_artists df types) =
    (fun entry : nat * (option string * color) =>
       ((fun x => x + 0.8 / len types * (len types - 1) / 2)%Q
          <$> range (length (type_rows df (entry.2.1))),
        building_name <$> type_rows df (entry.2.1)))
      <$> enumerate (zip types (color_palette_husl (length types))).
Proof.
  unfold type_artists.
  generalize (enumerate (zip types (color_palette_husl (length types)))).
  intros entries. induction entries as [|[i [t c]] entries IH]; [done|].
  csimpl. by rewrite IH.
Qed.

Lemma last_enumerate_palette (types : list (option string)) (t : option string) :
  last types = Some t ->
  exists i c, last (enumerate (zip types (color_palette_husl (length types))))
              = Some (i, (t, c)).
Proof.
  rewrite !last_lookup. intros Ht.
  pose proof (enumerate_lookup _ _ _ (palette_lookup _ _ _ Ht)) as Hentry.
  eexists _, _. rewrite <- Hentry. f_equal.
  unfold enumerate, color_palette_husl.
  rewrite !length_zip_with, !length_seq, length_fmap, length_seq. lia.
Qed.

(** X13: the tick labels of a saved grouped chart are those of the last
    building type only.  Every round of the loop sets the ticks of the x
    axis anew, so what the image shows are the names of the records of the
    type that comes last in order of first appearance; the names of the
    records of the other types are not on the axis. *)
Theorem grouped_chart_xticks (data : list building) (output_file : string)
    (w w' : world) :
  create_building_type_chart data output_file w = (Return Plt, w') ->
  exists (fig : figure) (last_type : option string) (ticks : list Q),
    fs w' !! output_file = Some (CImage fig) /\
    last (unique (building_type <$> data)) = Some last_type /\
    current_xticks fig = Some (ticks, building_name <$> type_rows data last_type) /\
    length ticks = length (type_rows data last_type).
Proof.
  intros Hrun. pose proof (create_building_type_chart_Plt _ _ _ _ Hrun) as Hfile.
  assert (Hlast : is_Some (last (unique (building_type <$> data)))).
  { destruct data as [|first rest].
    - by rewrite create_building_type_chart_run in Hrun.
    - rewrite last_lookup. apply lookup_lt_is_Some. simpl. lia. }
  destruct Hlast as [last_type Hlast].
  destruct (last_enumerate_palette _ _ Hlast) as (i & c & Hentry).
  eexists _, last_type, _. split; [exact Hfile|]. split; [exact Hlast|].
  unfold current_xticks, grouped_figure. cbn [artists].
  rewrite omap_app. csimpl. rewrite app_nil_r.
  rewrite type_artists_xticks, fmap_last, Hentry. csimpl.
  split; [reflexivity|]. by rewrite length_fmap, length_range.
Qed.

End Script.

(** * An instance of the sorting contract *)

Lemma insert_index_Permutation (a : list Q) (i : nat) (s : list nat) :
  insert_index a i s ≡ₚ i :: s.
Proof.
  induction s as [|j s IH]; [done|]. simpl.
  destruct (Qltb _ _); [|done]. rewrite IH. apply Permutation_swap.
Qed.

Lemma insert_index_HdRel (a : list Q) (i j : nat) (s : list nat) :
  index_le a j i -> HdRel (index_le a) j s -> HdRel (index_le a) j (insert_index a i s).
Proof.
  intros Hji Hs. destruct s as [|k s]; simpl; [by constructor|].
  destruct (Qltb _ _); constructor; [by inv Hs|done].
Qed.

Lemma insert_index_Sorted (a : list Q) (i : nat) (s : list nat) :
  Sorted (index_le a) s -> Sorted (index_le a) (insert_index a i s).
Proof.
  induction 1 as [|j s Hs IH Hj]; simpl; [by repeat constructor|].
  destruct (Qltb _ _) eqn:Hlt.
  - constructor; [done|]. apply insert_index_HdRel; [|done].
    apply Qltb_lt in Hlt. by apply Qlt_le_weak.
  - apply Qltb_ge in Hlt. by repeat constructor.
Qed.

Lemma values_at_in_range (a : list Q) (idx : list nat) :
  Forall (fun i => i < length a) idx ->
  values_at a idx = (fun i => default 0%Q (a !! i)) <$> idx.
Proof.
  induction 1 as [|i idx Hi _ IH]; [done|]. unfold values_at in *. csimpl.
  destruct (lookup_lt_is_Some_2 a i Hi) as [x ->]. simpl. by rewrite IH.
Qed.

Lemma insertion_argsort_spec (a : list Q) : is_argsort a (insertion_argsort a).
Proof.
  assert (Hperm : insertion_argsort a ≡ₚ seq 0 (length a)).
  { unfold insertion_argsort. induction (seq 0 (length a)) as [|i l IH]; [done|].
    simpl. by rewrite insert_index_Permutation, IH. }
  split; [done|].
  rewrite values_at_in_range by by apply argsort_in_range.
  apply Sorted_fmap with (R1 := index_le a); [done|].
  clear Hperm. unfold insertion_argsort.
  induction (seq 0 (length a)) as [|i l IH]; [constructor|].
  simpl. by apply insert_index_Sorted.
Qed.

(** * The claims on concrete runs *)

Ltac solve_has_fields :=
  repeat first [ apply List.Forall_nil | apply List.Forall_cons | split ];
  by eexists.

Lemma get_color_mapping_thresholds_witness :
  get_color_mapping 10 = "#10B981" /\
  get_color_mapping 65.5 = "#F59E0B" /\
  get_color_mapping 100 = "#EF4444".
Proof.
  split; [|split].
  - by apply (get_color_mapping_thresholds 10).
  - by apply (get_color_mapping_thresholds 65.5).
  - by apply (get_color_mapping_thresholds 100).
Defined.

Lemma chart_order_witness :
  Forall has_name_and_score sample_data /\
  exists (names : list string) (scores : list Q),
    fs (snd (create_risk_score_chart insertion_argsort false sample_data
               "risk_scores_chart.png" empty_world)) !! "risk_scores_chart.png"
      = Some (CImage (risk_score_figure names scores)) /\
    Sorted (flip Qle) scores.
Proof.
  assert (Hwf : Forall has_name_and_score sample_data) by solve_has_fields.
  split; [exact Hwf|].
  destruct (chart_order insertion_argsort insertion_argsort_spec false sample_data
              "risk_scores_chart.png" empty_world Hwf)
    as [(names & scores & w' & Hrun & Hfile & _ & Hsorted & _) _].
  exists names, scores. rewrite Hrun. split; [exact Hfile|exact Hsorted].
Defined.

(** C2 fails on the grouped chart: two records of one type, the lower score
    first, are drawn in that order, the lower bar to the left. *)
Lemma grouped_chart_not_sorted :
  Forall has_name_and_score ascending_records /\
  exists fig : figure,
    fs (snd (main insertion_argsort false (world_with ascending_records)))
      !! "risk_scores_by_type_chart.png" = Some (CImage fig) /\
    ~ non_increasing_left_to_right (plotted_bars fig).
Proof.
  split; [solve_has_fields|].
  eexists. split; [vm_compute; reflexivity|].
  intros Hsorted.
  assert (Hle : (20 <= 10)%Q).
  { eapply (Hsorted _ 10%Q _ 20%Q).
    - apply list_elem_of_here.
    - apply list_elem_of_further, list_elem_of_here.
    - reflexivity. }
  by apply Hle.
Qed.

Lemma main_creates_chart_files_witness :
  fs (world_with sample_data) !! "buildings.json" = Some (CJson sample_data) /\
  sample_data <> [] /\
  Forall has_name_and_score sample_data /\
  Forall (fun b => is_Some (building_type b)) sample_data /\
  exists w' : world,
    main insertion_argsort false (world_with sample_data) = (Return tt, w') /\
    is_Some (fs w' !! "risk_scores_chart.png") /\
    is_Some (fs w' !! "risk_scores_by_type_chart.png").
Proof.
  assert (Hwf : Forall has_name_and_score sample_data) by solve_has_fields.
  assert (Htyped : Forall (fun b => is_Some (building_type b)) sample_data)
    by solve_has_fields.
  assert (Hne : sample_data <> []) by discriminate.
  split; [reflexivity|]. split; [exact Hne|]. split; [exact Hwf|].
  split; [exact Htyped|].
  destruct (main_creates_chart_files insertion_argsort insertion_argsort_spec false
              (world_with sample_data) sample_data eq_refl Hne Hwf)
    as (names & scores & w' & Hrun & Hfile1 & Hfile2).
  exists w'. split; [exact Hrun|].
  split; [by rewrite Hfile1|by rewrite Hfile2].
Defined.

(** C3 fails when the records have no building type: the run returns and has
    written only the overall chart. *)
Lemma untyped_records_one_file :
  untyped_records <> [] /\
  Forall has_name_and_score untyped_records /\
  fst (main insertion_argsort false (world_with untyped_records)) = Return tt /\
  is_Some (fs (snd (main insertion_argsort false (world_with untyped_records)))
             !! "risk_scores_chart.png") /\
  fs (snd (main insertion_argsort false (world_with untyped_records)))
    !! "risk_scores_by_type_chart.png" = None.
Proof.
  split; [discriminate|]. split; [solve_has_fields|].
  split; [vm_compute; reflexivity|].
  split; [vm_compute; by eexists|vm_compute; reflexivity].
Qed.

Lemma main_exception_handling_witness :
  fst (main insertion_argsort false world_unparsable)
    = Raise (ValueError "Expecting value: line 1 column 1 (char 0)") /\
  fst (main insertion_argsort false (world_with nameless_records))
    = Raise (KeyError "building_name") /\
  exists w3 : world,
    main insertion_argsort false (world_with []) =
      (Return tt,
       World (fs w3) (figures w3)
             (stdout w3 ++ ("Couldn't create grouped chart: " +:+ exn_message IndexError)
                        :: closing_lines)).
Proof.
  split; [|split].
  - erewrite (proj1 (main_exception_handling insertion_argsort false world_unparsable));
      [reflexivity|vm_compute; reflexivity].
  - erewrite (proj1 (proj2 (main_exception_handling insertion_argsort false
                              (world_with nameless_records))));
      [reflexivity|vm_compute; reflexivity..].
  - eexists.
    eapply (proj2 (proj2 (main_exception_handling insertion_argsort false (world_with []))));
      vm_compute; reflexivity.
Defined.

Lemma main_file_effects_witness :
  "buildings.json" <> "risk_scores_chart.png" /\
  "buildings.json" <> "risk_scores_by_type_chart.png" /\
  fs (snd (main insertion_argsort false (world_with untyped_records))) !! "buildings.json"
    = Some (CJson untyped_records).
Proof.
  assert (H1 : "buildings.json" <> "risk_scores_chart.png") by discriminate.
  assert (H2 : "buildings.json" <> "risk_scores_by_type_chart.png") by discriminate.
  split; [exact H1|]. split; [exact H2|].
  by rewrite (main_file_effects insertion_argsort false (world_with untyped_records)
                "buildings.json" H1 H2).
Defined.

(** C5 fails in a directory without [buildings.json]: the run creates that
    file, which is neither of the two chart PNGs. *)
Lemma main_creates_sample_file :
  "buildings.json" <> "risk_scores_chart.png" /\
  "buildings.json" <> "risk_scores_by_type_chart.png" /\
  fs empty_world !! "buildings.json" = None /\
  fs (snd (main insertion_argsort false empty_world)) !! "buildings.json"
    = Some (CJson sample_data).
Proof.
  split; [discriminate|]. split; [discriminate|].
  split; [reflexivity|vm_compute; reflexivity].
Qed.

Lemma missing_building_type_skips_grouped_chart_witness :
  building_type (record "Hall A" 40 None) = None /\
  Forall has_name_and_score untyped_records /\
  fs (world_with untyped_records) !! "buildings.json" = Some (CJson untyped_records) /\
  fst (create_building_type_chart false untyped_records
         "risk_scores_by_type_chart.png" empty_world) = Return PyNone /\
  exists w' : world,
    main insertion_argsort false (world_with untyped_records) = (Return tt, w') /\
    is_Some (fs w' !! "risk_scores_chart.png") /\
    fs w' !! "risk_scores_by_type_chart.png" = None.
Proof.
  assert (Hwf : Forall has_name_and_score untyped_records) by solve_has_fields.
  split; [reflexivity|]. split; [exact Hwf|]. split; [reflexivity|].
  destruct (missing_building_type_skips_grouped_chart insertion_argsort
              insertion_argsort_spec false (world_with untyped_records)
              (record "Hall A" 40 None) [record "Hall B" 70 None] eq_refl Hwf eq_refl)
    as [Hskip (names & scores & w' & Hrun & Hfile1 & _ & _ & _ & _ & Hfile2)].
  split; [exact (f_equal fst (Hskip "risk_scores_by_type_chart.png" empty_world))|].
  exists w'. split; [exact Hrun|]. split; [by rewrite Hfile1|by rewrite Hfile2].
Defined.


Lemma sorting_preserves_name_score_pairs_witness :
  Forall has_name_and_score sample_data /\
  exists (names : list string) (scores : list Q),
    zip (Some <$> names) (Some <$> scores)
      ≡ₚ (fun b => (building_name b, fire_risk_score b)) <$> sample_data.
Proof.
  assert (Hwf : Forall has_name_and_score sample_data) by solve_has_fields.
  split; [exact Hwf|].
  destruct (sorting_preserves_name_score_pairs insertion_argsort insertion_argsort_spec
              false sample_data "risk_scores_chart.png" empty_world Hwf)
    as (names & scores & w' & _ & _ & _ & _ & Hperm).
  by exists names, scores.
Defined.

Lemma skip_decided_by_first_record_witness :
  fst (create_building_type_chart false [] "chart.png" empty_world) = Raise IndexError /\
  fst (create_building_type_chart false untyped_records "chart.png" empty_world)
    = Return PyNone /\
  fst (create_building_type_chart false
         (record "Lab A" 10 (Some "Academic") :: untyped_records) "chart.png" empty_world)
    <> Return PyNone.
Proof.
  destruct (skip_decided_by_first_record false) as (Hempty & Hskip & _).
  split; [by rewrite Hempty|]. split.
  - by apply Hskip.
  - intros H%Hskip. discriminate.
Defined.

(** * The further properties on concrete runs *)

Lemma get_color_mapping_monotone_witness :
  color_rank (get_color_mapping 20) <= color_rank (get_color_mapping 70) /\
  (get_color_mapping 20 = "#10B981" <-> (20 < 33)%Q).
Proof.
  destruct (get_color_mapping_monotone 20 70) as (Hmono & Hgreen & _).
  split; [by apply Hmono|exact Hgreen].
Defined.

Lemma create_risk_score_chart_missing_key_witness :
  Exists (fun b => building_name b = None) scoreless_then_nameless /\
  create_risk_score_chart insertion_argsort false scoreless_then_nameless
    "risk_scores_chart.png" empty_world
    = (Raise (KeyError "building_name"), empty_world) /\
  Forall (fun b => is_Some (building_name b)) scoreless_records /\
  Exists (fun b => fire_risk_score b = None) scoreless_records /\
  create_risk_score_chart insertion_argsort false scoreless_records
    "risk_scores_chart.png" empty_world
    = (Raise (KeyError "fire_risk_score"), empty_world).
Proof.
  assert (H1 : Exists (fun b => building_name b = None) scoreless_then_nameless).
  { apply Exists_cons_tl, Exists_cons_hd. reflexivity. }
  assert (H2 : Forall (fun b => is_Some (building_name b)) scoreless_records).
  { repeat first [ apply List.Forall_nil | apply List.Forall_cons ]; by eexists. }
  assert (H3 : Exists (fun b => fire_risk_score b = None) scoreless_records).
  { apply Exists_cons_tl, Exists_cons_hd. reflexivity. }
  split; [exact H1|]. split.
  { apply (create_risk_score_chart_missing_key insertion_argsort false
             scoreless_then_nameless "risk_scores_chart.png" empty_world), H1. }
  split; [exact H2|]. split; [exact H3|].
  by apply (create_risk_score_chart_missing_key insertion_argsort false
              scoreless_records "risk_scores_chart.png" empty_world).
Defined.

Lemma overall_chart_colors_witness :
  Forall has_name_and_score sample_data /\
  exists fig : figure,
    fs (snd (create_risk_score_chart insertion_argsort false sample_data
               "risk_scores_chart.png" empty_world)) !! "risk_scores_chart.png"
      = Some (CImage fig) /\
    length (colored_bars fig) = 6.
Proof.
  assert (Hwf : Forall has_name_and_score sample_data) by solve_has_fields.
  split; [exact Hwf|].
  destruct (overall_chart_colors insertion_argsort insertion_argsort_spec false
              sample_data "risk_scores_chart.png" empty_world Hwf)
    as (fig & w' & Hrun & Hfile & Hlen & _).
  exists fig. rewrite Hrun. split; [exact Hfile|exact Hlen].
Defined.

Lemma overall_chart_annotations_witness :
  Forall has_name_and_score sample_data /\
  exists fig : figure,
    fs (snd (create_risk_score_chart insertion_argsort false sample_data
               "risk_scores_chart.png" empty_world)) !! "risk_scores_chart.png"
      = Some (CImage fig) /\
    length (annotations fig) = 3.
Proof.
  assert (Hwf : Forall has_name_and_score sample_data) by solve_has_fields.
  split; [exact Hwf|].
  destruct (overall_chart_annotations insertion_argsort insertion_argsort_spec false
              sample_data "risk_scores_chart.png" empty_world Hwf)
    as (fig & w' & Hrun & Hfile & Hlen & _).
  exists fig. rewrite Hrun. split; [exact Hfile|exact Hlen].
Defined.

Lemma create_building_type_chart_effects_witness :
  create_building_type_chart false [] "grouped.png" (world_with [])
    = (Raise IndexError, world_with []) /\
  create_building_type_chart false untyped_records "grouped.png" empty_world
    = (Return PyNone,
       snd (create_building_type_chart false untyped_records "grouped.png" empty_world)) /\
  fs (snd (create_building_type_chart false untyped_records "grouped.png" empty_world))
    = fs empty_world.
Proof.
  assert (Hempty : create_building_type_chart false [] "grouped.png" (world_with [])
                   = (Raise IndexError, world_with [])) by reflexivity.
  assert (Hskip :
    create_building_type_chart false untyped_records "grouped.png" empty_world
      = (Return PyNone,
         snd (create_building_type_chart false untyped_records "grouped.png"
                empty_world))) by reflexivity.
  split; [exact Hempty|]. split; [exact Hskip|].
  apply (create_building_type_chart_effects false _ _ _ _ _ Hskip).
Defined.

Lemma create_risk_score_chart_returns_witness :
  create_risk_score_chart insertion_argsort false untyped_records "chart.png" empty_world
    = (Return Plt,
       snd (create_risk_score_chart insertion_argsort false untyped_records "chart.png"
              empty_world)) /\
  Forall has_name_and_score untyped_records.
Proof.
  assert (Hrun :
    create_risk_score_chart insertion_argsort false untyped_records "chart.png" empty_world
      = (Return Plt,
         snd (create_risk_score_chart insertion_argsort false untyped_records "chart.png"
                empty_world))).
  { rewrite (surjective_pairing (create_risk_score_chart _ _ _ _ _)) at 1.
    f_equal; vm_compute; reflexivity. }
  split; [exact Hrun|].
  apply (create_risk_score_chart_returns insertion_argsort false _ _ _ _ _ Hrun).
Defined.

Lemma main_aborts_on_bad_input_witness :
  fs world_unparsable !! "buildings.json"
    = Some (CUnparsable "Expecting value: line 1 column 1 (char 0)") /\
  main insertion_argsort false world_unparsable
    = (Raise (ValueError "Expecting value: line 1 column 1 (char 0)"),
       world_unparsable) /\
  Exists (fun b => building_name b = None) scoreless_then_nameless /\
  main insertion_argsort false (world_with scoreless_then_nameless)
    = (Raise (KeyError "building_name"), world_with scoreless_then_nameless) /\
  Forall (fun b => is_Some (building_name b)) scoreless_records /\
  Exists (fun b => fire_risk_score b = None) scoreless_records /\
  main insertion_argsort false (world_with scoreless_records)
    = (Raise (KeyError "fire_risk_score"), world_with scoreless_records).
Proof.
  assert (H1 : Exists (fun b => building_name b = None) scoreless_then_nameless).
  { apply Exists_cons_tl, Exists_cons_hd. reflexivity. }
  assert (H2 : Forall (fun b => is_Some (building_name b)) scoreless_records).
  { repeat first [ apply List.Forall_nil | apply List.Forall_cons ]; by eexists. }
  assert (H3 : Exists (fun b => fire_risk_score b = None) scoreless_records).
  { apply Exists_cons_tl, Exists_cons_hd. reflexivity. }
  destruct (main_aborts_on_bad_input insertion_argsort false world_unparsable)
    as (Hjson & _ & _).
  destruct (main_aborts_on_bad_input insertion_argsort false
              (world_with scoreless_then_nameless)) as (_ & Hname & _).
  destruct (main_aborts_on_bad_input insertion_argsort false
              (world_with scoreless_records)) as (_ & _ & Hscore).
  split; [reflexivity|]. split; [by apply Hjson|].
  split; [exact H1|].
  split; [exact (Hname scoreless_then_nameless eq_refl H1)|].
  split; [exact H2|]. split; [exact H3|].
  exact (Hscore scoreless_records eq_refl H2 H3).
Defined.

Lemma main_output_witness :
  fst (main insertion_argsort false (world_with untyped_records)) = Return tt /\
  exists lines : list string,
    stdout (snd (main insertion_argsort false (world_with untyped_records)))
      = (stdout (world_with untyped_records) ++ lines ++ closing_lines)%list.
Proof.
  assert (Hret : fst (main insertion_argsort false (world_with untyped_records))
                 = Return tt) by (vm_compute; reflexivity).
  split; [exact Hret|].
  destruct (main_output insertion_argsort false (world_with untyped_records) Hret)
    as (lines & new & Hout & _).
  by exists lines.
Defined.

Lemma main_empty_array_witness :
  fs (world_with []) !! "buildings.json" = Some (CJson []) /\
  fst (main insertion_argsort false (world_with [])) = Return tt.
Proof.
  split; [reflexivity|].
  destruct (main_empty_array insertion_argsort insertion_argsort_spec false
              (world_with []) eq_refl) as (fig & Hrun & _).
  by rewrite Hrun.
Defined.

Lemma main_first_run_witness :
  fs empty_world !! "buildings.json" = None /\
  fst (main insertion_argsort false empty_world) = Return tt.
Proof.
  split; [reflexivity|].
  destruct (main_first_run insertion_argsort insertion_argsort_spec false
              empty_world eq_refl) as (names & scores & w' & Hrun & _).
  by rewrite Hrun.
Defined.

Lemma grouped_chart_partition_witness :
  create_building_type_chart true partly_typed_records "grouped.png" empty_world
    = (Return Plt,
       snd (create_building_type_chart true partly_typed_records "grouped.png"
              empty_world)) /\
  exists fig : figure,
    bar_heights fig ≡ₚ [Some 10%Q] /\ length (bar_groups fig) = 2.
Proof.
  assert (Hrun :
    create_building_type_chart true partly_typed_records "grouped.png" empty_world
      = (Return Plt,
         snd (create_building_type_chart true partly_typed_records "grouped.png"
                empty_world))).
  { rewrite (surjective_pairing (create_building_type_chart _ _ _ _)) at 1.
    f_equal; vm_compute; reflexivity. }
  split; [exact Hrun|].
  destruct (grouped_chart_partition true _ _ _ _ Hrun) as (fig & _ & Hgroups & Hperm).
  exists fig. split; [exact Hperm|exact Hgroups].
Defined.

Lemma grouped_chart_xticks_witness :
  create_building_type_chart false sample_data "grouped.png" empty_world
    = (Return Plt,
       snd (create_building_type_chart false sample_data "grouped.png" empty_world)) /\
  exists (fig : figure) (ticks : list Q),
    current_xticks fig = Some (ticks, [Some "Meyer Hall"]).
Proof.
  assert (Hrun :
    create_building_type_chart false sample_data "grouped.png" empty_world
      = (Return Plt,
         snd (create_building_type_chart false sample_data "grouped.png" empty_world))).
  { rewrite (surjective_pairing (create_building_type_chart _ _ _ _)) at 1.
    f_equal; vm_compute; reflexivity. }
  split; [exact Hrun|].
  destruct (grouped_chart_xticks false _ _ _ _ Hrun)
    as (fig & last_type & ticks & _ & Hlast & Hticks & _).
  exists fig, ticks. rewrite Hticks.
  assert (Heq : last_type = Some "Research").
  { vm_compute in Hlast. by injection Hlast as <-. }
  by rewrite Heq.
Defined.
